(** * PyInstaller/utils/hooks/tcl_tk.py: discovery and collection of the
      Tcl/Tk data files

    A shallow embedding of the hook utility module and the proofs of its
    specification. Python values are modelled as follows:
    - [str] is [string]; the characters are code points below 256, on
      which [str.lower] and [str.strip] are modelled exactly;
    - [None]-or-[str] values are [option string];
    - a TOC entry [(name, path, typecode)] is the record [entry];
    - exceptions and the calls to the collaborators of the module (the
      logger, the interpreter probe, the binary dependency scanner, the
      file system) are threaded through the monad [M], which records the
      calls in program order and stops at the first exception. *)

From Stdlib Require Import String Ascii List Bool Arith Lia.
From stdpp Require Import base option list strings gmap.

Local Open Scope string_scope.
Local Open Scope list_scope.

(** ** Python [str] methods *)

Module Str.

(** [s.startswith(p)] *)
Definition startswith (p s : string) : bool := String.prefix p s.

(** [sub in s] *)
Fixpoint contains (sub s : string) : bool :=
  String.prefix sub s ||
  match s with
  | EmptyString => false
  | String _ s' => contains sub s'
  end.

(** [s.endswith(suf)] *)
Fixpoint endswith (suf s : string) : bool :=
  String.eqb s suf ||
  match s with
  | EmptyString => false
  | String _ s' => endswith suf s'
  end.

(** [c.isspace()] for a code point below 256: the ASCII white space,
    the four information separators, NEL and the no-break space. *)
Definition isspace (c : ascii) : bool :=
  let n := nat_of_ascii c in
  (((9 <=? n) && (n <=? 13)) || ((28 <=? n) && (n <=? 32))
   || (n =? 133) || (n =? 160))%nat.

(** [c.lower()] for a code point below 256: A-Z and the Latin-1 capitals
    (all of U+00C0..U+00DE but the multiplication sign) move up by 32. *)
Definition lower_char (c : ascii) : ascii :=
  let n := nat_of_ascii c in
  if (((65 <=? n) && (n <=? 90))
      || ((192 <=? n) && (n <=? 222) && negb (n =? 215)))%nat
  then ascii_of_nat (n + 32) else c.

(** [s.lower()] *)
Fixpoint lower (s : string) : string :=
  match s with
  | EmptyString => EmptyString
  | String c s' => String (lower_char c) (lower s')
  end.

(** [s.lstrip()] *)
Fixpoint lstrip (s : string) : string :=
  match s with
  | EmptyString => EmptyString
  | String c s' => if isspace c then lstrip s' else s
  end.

(** [s.rstrip()] *)
Fixpoint rstrip (s : string) : string :=
  match s with
  | EmptyString => EmptyString
  | String c s' =>
      match rstrip s' with
      | EmptyString => if isspace c then EmptyString else String c EmptyString
      | r => String c r
      end
  end.

(** [s.strip()] *)
Definition strip (s : string) : string := rstrip (lstrip s).

(** [s.split(sep)[0]] for a one-character separator: the part of [s]
    before the first [sep], all of [s] when there is none. *)
Fixpoint split_first (sep : ascii) (s : string) : string :=
  match s with
  | EmptyString => EmptyString
  | String c s' =>
      if Ascii.eqb c sep then EmptyString else String c (split_first sep s')
  end.

(** [not s]: the empty string is falsy. *)
Definition is_empty (s : string) : bool :=
  match s with EmptyString => true | _ => false end.

End Str.

(** ** [os.path]

    [os.path] is [posixpath] on Linux and macOS and [ntpath] on Windows;
    the hook only uses [join], [dirname] and [basename]. *)

Record PathModule := {
  path_join : string -> list string -> string;
  path_dirname : string -> string;
  path_basename : string -> string
}.

Module posixpath.

Definition sep : ascii := "/"%char.

Definition has_sep (s : string) : bool := Str.contains "/" s.

(** [p[:p.rfind('/') + 1]] *)
Fixpoint head_of (p : string) : string :=
  match p with
  | EmptyString => EmptyString
  | String c p' =>
      if has_sep p' then String c (head_of p')
      else if Ascii.eqb c sep then String c EmptyString
      else EmptyString
  end.

(** [p[p.rfind('/') + 1:]] *)
Fixpoint basename (p : string) : string :=
  match p with
  | EmptyString => EmptyString
  | String c p' =>
      if has_sep p' then basename p'
      else if Ascii.eqb c sep then p'
      else p
  end.

(** [head == '/' * len(head)] *)
Fixpoint all_sep (s : string) : bool :=
  match s with
  | EmptyString => true
  | String c s' => Ascii.eqb c sep && all_sep s'
  end.

(** [head.rstrip('/')] *)
Fixpoint rstrip_sep (s : string) : string :=
  match s with
  | EmptyString => EmptyString
  | String c s' =>
      match rstrip_sep s' with
      | EmptyString =>
          if Ascii.eqb c sep then EmptyString else String c EmptyString
      | r => String c r
      end
  end.

Definition dirname (p : string) : string :=
  let head := head_of p in
  if negb (Str.is_empty head) && negb (all_sep head)
  then rstrip_sep head else head.

(** One step of the loop of [join]. *)
Definition join_step (path b : string) : string :=
  if Str.startswith "/" b then b
  else if Str.is_empty path || Str.endswith "/" path then path +:+ b
  else path +:+ "/" +:+ b.

Definition join (a : string) (p : list string) : string :=
  fold_left join_step p a.

Definition module : PathModule :=
  {| path_join := join; path_dirname := dirname;
     path_basename := basename |}.

End posixpath.

(** ** Exceptions, collaborator calls and the monad of the module *)

(** The exceptions a run of the module can end in: the three the module's
    own expressions can raise, and those of its collaborators (opening or
    decoding a file, the interpreter probe). *)
Inductive exn :=
| KeyError (key : string)
| IndexError
| TypeError
| OSError
| UnicodeDecodeError
| InterpreterProbeError.

Inductive outcome (A : Type) :=
| Ok (a : A)
| Raise (e : exn).
Arguments Ok {A} a.
Arguments Raise {A} e.

(** The three statements handed to [hookutils.exec_statement]. *)
Inductive probe :=
| InfoLibrary      (* print(Tcl().eval("info library")) *)
| TkVersion        (* print(TK_VERSION) *)
| InfoTclVersion.  (* print(Tcl().eval("info tclversion")) *)

Inductive level := INFO | WARNING | ERROR.

(** The log messages of the module, with the value of their [%s]. *)
Inductive message :=
| MsgNotCollecting
| MsgImproperlyInstalled
| MsgTclDirNotFound (tcl_root : string)
| MsgTkDirNotFound (tk_root : string)
| MsgModulesDirMissing (modules_path : string)
| MsgActiveTcl (init_resource : string).

(** A TOC entry: [(name, path, typecode)]. *)
Record entry := Entry {
  e_name : string;
  e_path : string;
  e_typecode : string
}.

Inductive event :=
| Log (lv : level) (m : message)
| ExecStatement (p : probe)
| SelectImports (f : string)
| GetImports (f : string)
| IsDir (p : string)
| InSystemPath (p : string)
| ReadLines (p : string)
| TreeBuilt (root prefix : string) (excludes : list string).

Definition is_log (ev : event) : bool :=
  match ev with Log _ _ => true | _ => false end.

Definition is_warning (ev : event) : bool :=
  match ev with Log WARNING _ => true | _ => false end.

Definition is_scan (ev : event) : bool :=
  match ev with SelectImports _ | GetImports _ => true | _ => false end.

(** A computation: the calls it made, in order, and how it ended. *)
Definition M (A : Type) : Type := list event * outcome A.

Definition trace {A} (m : M A) : list event := fst m.
Definition result {A} (m : M A) : outcome A := snd m.

#[global] Instance M_ret : MRet M := fun A a => ([], Ok a).

#[global] Instance M_bind : MBind M := fun A B f m =>
  match m with
  | (t, Ok a) => let '(t', r) := f a in (t ++ t', r)
  | (t, Raise e) => (t, Raise e)
  end.

Definition raise {A} (e : exn) : M A := ([], Raise e).

(** A call to a collaborator: the call is recorded, its answer returned. *)
Definition call {A} (ev : event) (r : outcome A) : M A := ([ev], r).

(** ** The host: what the collaborators answer

    The platform flag of [compat], the [os.path] of the platform, and the
    answers of [hookutils.exec_statement], of [bindepend.selectImports] and
    [bindepend.getImports] (the latter's set in its iteration order), of
    [os.path.isdir], of [macholib.util.in_system_path], of
    [open(...).readlines()] and of [Tree(root, prefix, excludes)]. *)
Record World := {
  compat_is_darwin : bool;
  os_path : PathModule;
  host_exec_statement : probe -> outcome string;
  host_selectImports : string -> list (string * string);
  host_getImports : string -> list string;
  host_isdir : string -> bool;
  host_in_system_path : string -> bool;
  host_readlines : string -> outcome (list string);
  host_Tree : string -> string -> list string -> list entry
}.

Section Hook.

Variable w : World.

Definition logger (lv : level) (m : message) : M unit :=
  call (Log lv m) (Ok tt).

Definition exec_statement (p : probe) : M string :=
  call (ExecStatement p) (host_exec_statement w p).

Definition selectImports (f : string) : M (list (string * string)) :=
  call (SelectImports f) (Ok (host_selectImports w f)).

Definition getImports (f : string) : M (list string) :=
  call (GetImports f) (Ok (host_getImports w f)).

Definition isdir (p : string) : M bool :=
  call (IsDir p) (Ok (host_isdir w p)).

(** A value handed to [os.path] or to [Tree] as a path has to be a
    [str]: [os.path.isdir(None)] is a [TypeError]. *)
Definition as_path (v : option string) : M string :=
  match v with
  | None => raise TypeError
  | Some s => mret s
  end.

Definition in_system_path (p : string) : M bool :=
  call (InSystemPath p) (Ok (host_in_system_path w p)).

Definition readlines (p : string) : M (list string) :=
  call (ReadLines p) (host_readlines w p).

(** [Tree(root, prefix=..., excludes=...)] *)
Definition Tree (root prefix : string) (excludes : list string)
    : M (list entry) :=
  call (TreeBuilt root prefix excludes)
       (Ok (host_Tree w root prefix excludes)).

(** [not v] for a value that is [None] or a [str]. *)
Definition falsy (v : option string) : bool :=
  match v with
  | None => true
  | Some s => Str.is_empty s
  end.

(** [xs[0]] *)
Definition first {A} (xs : list A) : outcome A :=
  match xs with
  | [] => Raise IndexError
  | x :: _ => Ok x
  end.

(** [mapping[key]] *)
Definition getitem (mapping : gmap string string) (key : string)
    : M string :=
  match mapping !! key with
  | Some v => mret v
  | None => raise (KeyError key)
  end.

(** *** [_warn_if_activetcl_or_teapot_installed] *)

(** The [for line in init_file.readlines()] loop, from the flags it is
    entered with; [continue] on a comment line, [break] once both flags
    are set. *)
Fixpoint scan_lines (lines : list string)
    (mentions_activetcl mentions_teapot : bool) : bool * bool :=
  match lines with
  | [] => (mentions_activetcl, mentions_teapot)
  | line :: rest =>
      let line := Str.lower (Str.strip line) in
      if Str.startswith "#" line then
        scan_lines rest mentions_activetcl mentions_teapot
      else
        let mentions_activetcl :=
          if Str.contains "activetcl" line then true
          else mentions_activetcl in
        let mentions_teapot :=
          if Str.contains "teapot" line then true
          else mentions_teapot in
        if mentions_activetcl && mentions_teapot then
          (mentions_activetcl, mentions_teapot)
        else scan_lines rest mentions_activetcl mentions_teapot
  end.

(** The function only iterates over [tcltree] (the list comprehension); it
    assigns to none of its items and calls no method of it, so the
    manifest is an argument that is read, not a store that is threaded. *)
Definition _warn_if_activetcl_or_teapot_installed
    (tcl_root : string) (tcltree : list entry) : M unit :=
  sys ← in_system_path tcl_root;
  if sys : bool then mret tt else
  match first (List.map e_path
                 (List.filter (fun r => Str.endswith "init.tcl" (e_path r))
                    tcltree)) with
  | Raise IndexError => mret tt
  | Raise e => raise e
  | Ok init_resource =>
      lines ← readlines init_resource;
      let '(mentions_activetcl, mentions_teapot) :=
        scan_lines lines false false in
      if mentions_activetcl && mentions_teapot then
        logger WARNING (MsgActiveTcl init_resource)
      else mret tt
  end.

(** *** [_find_tcl_tk_dir] *)

Definition _find_tcl_tk_dir : M (option string * option string) :=
  tcl_root ← exec_statement InfoLibrary;
  tk_version ← exec_statement TkVersion;
  let tk_root :=
    path_join (os_path w) (path_dirname (os_path w) tcl_root)
      ["tk" +:+ tk_version] in
  mret (Some tcl_root, Some tk_root).

(** *** [_find_tcl_tk] *)

(** The [mapping] built by the loop over the full set of imports. *)
Definition basename_mapping (bins : list string) : gmap string string :=
  foldl (fun mapping lib => <[path_basename (os_path w) lib := lib]> mapping)
    ∅ bins.

(** The part of the macOS branch below the search for [bins]. *)
Definition check_path_to_tcl (bins : list (string * string))
    : M (option string * option string) :=
  match first bins with
  | Raise e => raise e
  | Ok b =>
      let path_to_tcl := snd b in
      if Str.contains "Library/Frameworks/Tcl.framework" path_to_tcl then
        mret (None, None)
      else _find_tcl_tk_dir
  end.

Definition _find_tcl_tk (tkinter_ext_file : string)
    : M (option string * option string) :=
  if compat_is_darwin w then
    bins ← selectImports tkinter_ext_file;
    match bins with
    | [] =>
        bins ← getImports tkinter_ext_file;
        match bins with
        | _ :: _ =>
            let mapping := basename_mapping bins in
            tcl ← getitem mapping "Tcl";
            tk ← getitem mapping "Tk";
            check_path_to_tcl [("Tcl", tcl); ("Tk", tk)]
        | [] => mret (None, None)
        end
    | _ :: _ => check_path_to_tcl bins
    end
  else _find_tcl_tk_dir.

(** *** [_collect_tcl_modules] *)

Definition _collect_tcl_modules (tcl_root : string) : M (list entry) :=
  tcl_version ← exec_statement InfoTclVersion;
  let tcl_version := Str.split_first "." tcl_version in
  let modules_dirname := "tcl" +:+ tcl_version in
  let modules_path :=
    path_join (os_path w) tcl_root [".."; modules_dirname] in
  d ← isdir modules_path;
  if negb d then
    logger WARNING (MsgModulesDirMissing modules_path);;
    mret []
  else Tree modules_path modules_dirname [].

(** *** [collect_tcl_tk_files] *)

Definition tcl_excludes : list string := ["demos"; "*.lib"; "tclConfig.sh"].
Definition tk_excludes : list string := ["demos"; "*.lib"; "tkConfig.sh"].

(** Modelled from the spec: the [+] of two manifests. The class of the
    manifests ([TOC], in [PyInstaller.building.datastruct]) is not among
    the sources; the spec has the assembler return the concatenation of
    the core, widget and module manifests, each in its own order. *)
Definition toc_add (a b : list entry) : list entry := a ++ b.

Definition collect_tcl_tk_files (tkinter_ext_file : string)
    : M (list entry) :=
  '(tcl_root, tk_root) ← _find_tcl_tk tkinter_ext_file;
  if compat_is_darwin w && falsy tcl_root && falsy tk_root then
    logger INFO MsgNotCollecting;;
    mret []
  else if falsy tcl_root then
    logger ERROR MsgImproperlyInstalled;;
    mret []
  else
    tcl_root ← as_path tcl_root;
    d ← isdir tcl_root;
    if negb d then
      logger ERROR (MsgTclDirNotFound tcl_root);;
      mret []
    else
      tk_root ← as_path tk_root;
      d ← isdir tk_root;
      if negb d then
        logger ERROR (MsgTkDirNotFound tk_root);;
        mret []
      else
        tcltree ← Tree tcl_root "tcl" tcl_excludes;
        tktree ← Tree tk_root "tk" tk_excludes;
        (if compat_is_darwin w then
           _warn_if_activetcl_or_teapot_installed tcl_root tcltree
         else mret tt);;
        tclmodulestree ← _collect_tcl_modules tcl_root;
        mret (toc_add (toc_add tcltree tktree) tclmodulestree).

End Hook.

(** ** Hosts to run the module on *)

Module Hosts.

Definition mem (p : string) (ps : list string) : bool :=
  existsb (String.eqb p) ps.

(** The manifests of a small Tcl/Tk installation under [lib], as [Tree]
    lists them. *)
Definition tcl_entries (lib : string) : list entry :=
  [ Entry "tcl/init.tcl" (lib +:+ "/tcl8.6/init.tcl") "DATA";
    Entry "tcl/auto.tcl" (lib +:+ "/tcl8.6/auto.tcl") "DATA" ].

Definition tk_entries (lib : string) : list entry :=
  [ Entry "tk/tk.tcl" (lib +:+ "/tk8.6/tk.tcl") "DATA";
    Entry "tk/button.tcl" (lib +:+ "/tk8.6/button.tcl") "DATA" ].

Definition module_entries (lib : string) : list entry :=
  [ Entry "tcl8/8.6/http-2.9.0.tm"
      (lib +:+ "/tcl8.6/../tcl8/8.6/http-2.9.0.tm") "DATA" ].

Definition tree_of (lib root prefix : string) (excludes : list string)
    : list entry :=
  if String.eqb root (lib +:+ "/tcl8.6") then tcl_entries lib
  else if String.eqb root (lib +:+ "/tk8.6") then tk_entries lib
  else if String.eqb root (lib +:+ "/tcl8.6/../tcl8") then module_entries lib
  else [].

Definition probe_answers (lib : string) (p : probe) : outcome string :=
  match p with
  | InfoLibrary => Ok (lib +:+ "/tcl8.6")
  | TkVersion => Ok "8.6"
  | InfoTclVersion => Ok "8.6"
  end.

(** [macholib.util.in_system_path], on a path without symbolic links. *)
Definition in_system_path (p : string) : bool :=
  if Str.startswith "/usr/local/" p then false
  else Str.startswith "/System/" p || Str.startswith "/usr/" p.

(** A Linux host with Tcl/Tk 8.6 under [/usr/lib]; [dirs] are the
    directories that exist. *)
Definition linux_with (dirs : list string) : World :=
  {| compat_is_darwin := false;
     os_path := posixpath.module;
     host_exec_statement := probe_answers "/usr/lib";
     host_selectImports := fun _ => [];
     host_getImports := fun _ => [];
     host_isdir := fun p => mem p dirs;
     host_in_system_path := in_system_path;
     host_readlines := fun _ => Raise OSError;
     host_Tree := tree_of "/usr/lib" |}.

Definition linux : World :=
  linux_with ["/usr/lib/tcl8.6"; "/usr/lib/tk8.6"; "/usr/lib/tcl8.6/../tcl8"].

(** The same host with the Tk data directory missing. *)
Definition linux_no_tk : World := linux_with ["/usr/lib/tcl8.6"].

(** A host like [linux] but for what its scanner would answer. *)
Definition linux_scanning : World :=
  {| compat_is_darwin := false;
     os_path := posixpath.module;
     host_exec_statement := probe_answers "/usr/lib";
     host_selectImports := fun _ => [("libtcl8.6.so", "/usr/lib/libtcl8.6.so")];
     host_getImports := fun _ => ["/usr/lib/libtcl8.6.so"];
     host_isdir := fun _ => false;
     host_in_system_path := in_system_path;
     host_readlines := fun _ => Raise OSError;
     host_Tree := tree_of "/usr/lib" |}.

(** The library directory of a python.org build on macOS. *)
Definition pylib : string :=
  "/Library/Frameworks/Python.framework/Versions/3.9/lib".

(** A macOS host, given what the scanner answers and what reading
    [init.tcl] gives; Tcl/Tk 8.6 is laid out under [pylib]. *)
Definition macos (curated : list (string * string)) (full : list string)
    (init_tcl : outcome (list string)) : World :=
  {| compat_is_darwin := true;
     os_path := posixpath.module;
     host_exec_statement := probe_answers pylib;
     host_selectImports := fun _ => curated;
     host_getImports := fun _ => full;
     host_isdir := fun p =>
       mem p [pylib +:+ "/tcl8.6"; pylib +:+ "/tk8.6";
              pylib +:+ "/tcl8.6/../tcl8"];
     host_in_system_path := in_system_path;
     host_readlines := fun p =>
       if String.eqb p (pylib +:+ "/tcl8.6/init.tcl") then init_tcl
       else Raise OSError;
     host_Tree := tree_of pylib |}.

(** macOS 11: the scanner finds nothing. *)
Definition macos_hidden : World := macos [] [] (Ok []).

(** The extension links against the system frameworks. *)
Definition macos_system : World :=
  macos [] [ "/System/Library/Frameworks/Tk.framework/Versions/8.5/Tk";
             "/System/Library/Frameworks/Tcl.framework/Versions/8.5/Tcl";
             "/usr/lib/libSystem.B.dylib" ]
        (Ok []).

(** The extension links against the private copies of a python.org
    build. *)
Definition macos_bundled (init_tcl : outcome (list string)) : World :=
  macos [ ("libtcl8.6.dylib", pylib +:+ "/libtcl8.6.dylib");
          ("libtk8.6.dylib", pylib +:+ "/libtk8.6.dylib") ]
        [] init_tcl.

(** The curated list is empty and no library of the full set is named
    [Tcl] or [Tk]. *)
Definition macos_dylibs : World :=
  macos [] [ "/usr/lib/libSystem.B.dylib";
             "/opt/local/lib/libtcl8.6.dylib";
             "/opt/local/lib/libtk8.6.dylib" ]
        (Ok []).

(** An [init.tcl] of an ActiveTcl build, and one of a stock build. *)
Definition init_activetcl : list string :=
  [ "# init.tcl --" +:+ String "010"%char "";
    "package require -exact Tcl 8.6.9" +:+ String "010"%char "";
    "  # ActiveTcl and its teapot" +:+ String "010"%char "";
    "set dir [file join $::activestate::ActiveTcl lib]" +:+ String "010"%char "";
    "lappend auto_path [file join $dir TEAPOT]" +:+ String "010"%char "" ].

Definition init_stock : list string :=
  [ "# init.tcl --" +:+ String "010"%char "";
    "  # ActiveTcl and its teapot" +:+ String "010"%char "";
    "package require -exact Tcl 8.6.9" +:+ String "010"%char "" ].

Definition ext : string :=
  "/usr/lib/python3.9/lib-dynload/_tkinter.cpython-39.so".

End Hosts.

(** ** The directory-tree enumerator *)

Module TreeModel.

(** Modelled from the spec: the directory-tree enumerator (class [Tree]
    of [PyInstaller.building.datastruct], which is not among the
    sources). Given a root path, a destination prefix and a list of
    exclusion glob patterns it returns an ordered sequence of entries
    covering all files and directories under the root not matched by an
    exclusion pattern; an entry is a destination-relative path, a source
    path and a kind, regular file or directory marker. A pattern is
    matched against the name of a file or directory; what lies under an
    excluded directory is not visited. *)
#[local] Unset Elimination Schemes.
Inductive node :=
| File (name : string)
| Dir (name : string) (children : list node).
#[local] Set Elimination Schemes.

Inductive kind := RegularFile | DirectoryMarker.

Definition typecode (k : kind) : string :=
  match k with
  | RegularFile => "DATA"
  | DirectoryMarker => "DIRECTORY"
  end.

(** Glob matching of a name: [*] stands for any run of characters, [?]
    for any one character, every other character for itself. *)
Fixpoint glob (pat s : string) : bool :=
  match pat with
  | EmptyString => Str.is_empty s
  | String p pat' =>
      if Ascii.eqb p "*" then
        (fix star (s : string) : bool :=
           glob pat' s ||
           match s with
           | EmptyString => false
           | String _ s' => star s'
           end) s
      else
        match s with
        | EmptyString => false
        | String c s' =>
            (Ascii.eqb p "?" || Ascii.eqb p c) && glob pat' s'
        end
  end.

Definition excluded (excludes : list string) (name : string) : bool :=
  existsb (fun pat => glob pat name) excludes.

(** The paths, relative to the directory that holds [n], of what the
    enumeration of [n] covers. *)
Fixpoint walk (excludes : list string) (n : node)
    : list (list string * kind) :=
  match n with
  | File name =>
      if excluded excludes name then [] else [([name], RegularFile)]
  | Dir name children =>
      if excluded excludes name then []
      else ([name], DirectoryMarker)
           :: List.map (fun x => (name :: fst x, snd x))
                (List.flat_map (walk excludes) children)
  end.

Definition walk_all (excludes : list string) (nodes : list node)
    : list (list string * kind) :=
  List.flat_map (walk excludes) nodes.

Definition to_entry (P : PathModule) (root prefix : string)
    (x : list string * kind) : entry :=
  Entry (path_join P prefix (fst x)) (path_join P root (fst x))
        (typecode (snd x)).

(** [Tree(root, prefix, excludes)] on a file system whose directory
    [root] holds [listdir root]. *)
Definition Tree (P : PathModule) (listdir : string -> list node)
    (root prefix : string) (excludes : list string) : list entry :=
  List.map (to_entry P root prefix) (walk_all excludes (listdir root)).

(** No component of a relative path is matched by an exclusion. *)
Definition clear_of (excludes : list string) (path : list string) : bool :=
  forallb (fun c => negb (excluded excludes c)) path.

(** A fixture: a Tcl library with a [demos] directory, an import
    library and [tclConfig.sh] next to the scripts. *)
Definition tcl_fixture : list node :=
  [ File "init.tcl";
    Dir "demos" [ File "hello.tcl"; File "README" ];
    File "tcl86.lib";
    File "tclConfig.sh";
    Dir "encoding" [ File "ascii.enc"; File "stub.lib" ];
    File "tkConfig.sh" ].

(** The fixture of the widget library. *)
Definition tk_fixture : list node :=
  [ File "tk.tcl";
    Dir "demos" [ File "widget" ];
    File "tk86.lib";
    File "tkConfig.sh";
    File "tclConfig.sh";
    Dir "images" [ File "logo.gif" ] ].

Definition listdir_fixture (root : string) : list node :=
  if String.eqb root "/usr/lib/tcl8.6" then tcl_fixture
  else if String.eqb root "/usr/lib/tk8.6" then tk_fixture
  else if String.eqb root "/usr/lib/tcl8.6/../tcl8" then
    [ Dir "8.6" [ File "http-2.9.0.tm" ] ]
  else [].

(** The Linux host of [Hosts] with the enumerator run on the fixture. *)
Definition linux_fixture : World :=
  {| compat_is_darwin := false;
     os_path := posixpath.module;
     host_exec_statement := Hosts.probe_answers "/usr/lib";
     host_selectImports := fun _ => [];
     host_getImports := fun _ => [];
     host_isdir := fun p =>
       Hosts.mem p ["/usr/lib/tcl8.6"; "/usr/lib/tk8.6";
                    "/usr/lib/tcl8.6/../tcl8"];
     host_in_system_path := Hosts.in_system_path;
     host_readlines := fun _ => Raise OSError;
     host_Tree := Tree posixpath.module listdir_fixture |}.

(** A name the Tcl, respectively Tk, exclusions leave in. *)
Definition kept_tcl (c : string) : Prop :=
  c <> "demos" /\ Str.endswith ".lib" c = false /\ c <> "tclConfig.sh".

Definition kept_tk (c : string) : Prop :=
  c <> "demos" /\ Str.endswith ".lib" c = false /\ c <> "tkConfig.sh".

End TreeModel.

(** ** The words of the specification *)

Section Vocabulary.

Variable w : World.

(** The scanner discovers no linked image at all. *)
Definition no_linked_images (f : string) : Prop :=
  host_selectImports w f = [] /\ host_getImports w f = [].

(** The image list the macOS branch works on, when it finds one: the
    curated subset if it is not empty, else the images of the full set
    filed under the base names [Tcl] and [Tk]. *)
Definition bins_in_use (f : string) : option (list (string * string)) :=
  match host_selectImports w f with
  | _ :: _ => Some (host_selectImports w f)
  | [] =>
      match host_getImports w f with
      | [] => None
      | bins =>
          match basename_mapping w bins !! "Tcl",
                basename_mapping w bins !! "Tk" with
          | Some tcl, Some tk => Some [("Tcl", tcl); ("Tk", tk)]
          | _, _ => None
          end
      end
  end.

Definition system_framework (path_to_tcl : string) : bool :=
  Str.contains "Library/Frameworks/Tcl.framework" path_to_tcl.

(** The linked images the scanner discovers: the curated subset if it is
    not empty, else the full set. *)
Definition linked_images (f : string) : list string :=
  match host_selectImports w f with
  | [] => host_getImports w f
  | bins => List.map snd bins
  end.

(** [tcl] is the Tcl image: the one linked image whose base name is
    [Tcl]. *)
Definition is_the_tcl_image (f tcl : string) : Prop :=
  filter (fun lib => path_basename (os_path w) lib = "Tcl") (linked_images f)
  = [tcl].

(** The resolver gets to the image [tcl]: it heads the curated subset, or
    the curated subset is empty and the full set, where [tcl] is looked up
    by its base name, also holds an image named [Tk]. *)
Definition tcl_image_reached (f tcl : string) : Prop :=
  (exists name rest, host_selectImports w f = (name, tcl) :: rest)
  \/ (host_selectImports w f = []
      /\ List.Exists (fun lib => path_basename (os_path w) lib = "Tk")
           (host_getImports w f)).

(** A linked image with the base name [Tcl] lies in the system
    framework. *)
Definition tcl_image_in_system_framework (f : string) : Prop :=
  exists tcl,
    In tcl (linked_images f)
    /\ path_basename (os_path w) tcl = "Tcl"
    /\ system_framework tcl = true.

(** The first path of the image list in use names the system
    framework. *)
Definition tcl_image_of_system (f : string) : Prop :=
  exists b rest,
    bins_in_use f = Some (b :: rest) /\ system_framework (snd b) = true.

(** The scanner calls of the macOS branch: the full set is asked for
    only when the curated subset is empty. *)
Definition scan_trace (f : string) : list event :=
  match host_selectImports w f with
  | [] => [SelectImports f; GetImports f]
  | _ :: _ => [SelectImports f]
  end.

(** C3 as it is worded: on macOS the resolver returns [(None, None)]
    exactly when no linked image is discovered or the path of the Tcl
    image, the linked image with the base name [Tcl], names the system
    framework, and in every other case its result is that of the standard
    derivation. *)
Definition skips_exactly_twice (f : string) : Prop :=
  let skip := no_linked_images f \/ tcl_image_in_system_framework f in
  compat_is_darwin w = true ->
  (result (_find_tcl_tk w f) = Ok (None, None) <-> skip)
  /\ (~ skip -> result (_find_tcl_tk w f) = result (_find_tcl_tk_dir w)).

(** C5 as it is worded: the health check never raises. *)
Definition never_raises (tcl_root : string) (tcltree : list entry) : Prop :=
  result (_warn_if_activetcl_or_teapot_installed w tcl_root tcltree) = Ok tt.

End Vocabulary.

(** A line of [init.tcl] that is no comment and mentions [marker],
    whatever the case of its letters. *)
Definition mentions (marker line : string) : bool :=
  let line := Str.lower (Str.strip line) in
  negb (Str.startswith "#" line) && Str.contains marker line.

(** The script the health check reads: the path of the first entry whose
    path ends with [init.tcl]. *)
Definition init_script (tcltree : list entry) : outcome string :=
  first (List.map e_path
           (List.filter (fun r => Str.endswith "init.tcl" (e_path r)) tcltree)).

(** The messages a computation logged. *)
Definition logged {A} (m : M A) : list event :=
  List.filter is_log (trace m).

(** The calls to the binary dependency scanner. *)
Definition scans {A} (m : M A) : list event :=
  List.filter is_scan (trace m).

(** ** Hosts with a fault, and the events of a run by kind *)

Module Faults.

(** The host [w] but for what its probes answer, what reading a file
    gives, which directories exist. *)
Definition with_probes (w : World) (a : probe -> outcome string) : World :=
  {| compat_is_darwin := compat_is_darwin w;
     os_path := os_path w;
     host_exec_statement := a;
     host_selectImports := host_selectImports w;
     host_getImports := host_getImports w;
     host_isdir := host_isdir w;
     host_in_system_path := host_in_system_path w;
     host_readlines := host_readlines w;
     host_Tree := host_Tree w |}.

Definition with_readlines (w : World) (r : string -> outcome (list string))
    : World :=
  {| compat_is_darwin := compat_is_darwin w;
     os_path := os_path w;
     host_exec_statement := host_exec_statement w;
     host_selectImports := host_selectImports w;
     host_getImports := host_getImports w;
     host_isdir := host_isdir w;
     host_in_system_path := host_in_system_path w;
     host_readlines := r;
     host_Tree := host_Tree w |}.

(** The probes of [Hosts.linux] with one of them failing. *)
Definition failing (bad : probe) (p : probe) : outcome string :=
  match bad, p with
  | InfoLibrary, InfoLibrary
  | TkVersion, TkVersion
  | InfoTclVersion, InfoTclVersion => Raise InterpreterProbeError
  | _, _ => Hosts.probe_answers "/usr/lib" p
  end.

Definition linux_failing (bad : probe) : World :=
  with_probes Hosts.linux (failing bad).

(** The interpreter prints nothing for the library root. *)
Definition linux_silent : World :=
  with_probes Hosts.linux
    (fun p => match p with
              | InfoLibrary => Ok ""
              | _ => Hosts.probe_answers "/usr/lib" p
              end).

(** No Tcl data directory; no modules directory. *)
Definition linux_no_tcl : World := Hosts.linux_with ["/usr/lib/tk8.6"].

Definition linux_no_modules : World :=
  Hosts.linux_with ["/usr/lib/tcl8.6"; "/usr/lib/tk8.6"].

(** Two copies of Tcl among the linked images, the later one private. *)
Definition macos_two_tcl : World :=
  Hosts.macos []
    [ "/System/Library/Frameworks/Tcl.framework/Versions/8.5/Tcl";
      "/System/Library/Frameworks/Tk.framework/Versions/8.5/Tk";
      "/opt/tcl/lib/Tcl" ]
    (Ok []).

(** The curated subset lists the system Tk framework before the system
    Tcl framework. *)
Definition macos_tcl_second : World :=
  Hosts.macos
    [ ("Tk", "/System/Library/Frameworks/Tk.framework/Versions/8.5/Tk");
      ("Tcl", "/System/Library/Frameworks/Tcl.framework/Versions/8.5/Tcl") ]
    [] (Ok []).

(** A framework installed for one user only. *)
Definition macos_user_framework : World :=
  Hosts.macos
    [ ("Tcl", "/Users/me/Library/Frameworks/Tcl.framework/Versions/8.6/Tcl");
      ("Tk", "/Users/me/Library/Frameworks/Tk.framework/Versions/8.6/Tk") ]
    [] (Ok []).

(** [Hosts.init_activetcl] in capitals. *)
Definition init_shouting : list string :=
  [ "# INIT.TCL --" +:+ String "010"%char "";
    "PACKAGE REQUIRE -EXACT TCL 8.6.9" +:+ String "010"%char "";
    "  # ACTIVETCL AND ITS TEAPOT" +:+ String "010"%char "";
    "SET DIR [FILE JOIN $::ACTIVESTATE::ACTIVETCL LIB]" +:+ String "010"%char "";
    "LAPPEND AUTO_PATH [FILE JOIN $DIR TEAPOT]" +:+ String "010"%char "" ].

End Faults.

Definition is_probe (ev : event) : bool :=
  match ev with ExecStatement _ => true | _ => false end.

(** The events only the macOS branches produce: the scanner calls, the
    system-path test, the reading of a script, the two macOS messages. *)
Definition is_macos_event (ev : event) : bool :=
  match ev with
  | SelectImports _ | GetImports _ | InSystemPath _ | ReadLines _
  | Log _ (MsgActiveTcl _) | Log _ MsgNotCollecting => true
  | _ => false
  end.

(** An enumeration is of an existing directory, with the prefix and the
    exclusions of the core library, of the widget library or of the
    modules. *)
Definition sound_enumeration (w : World) (ev : event) : Prop :=
  match ev with
  | TreeBuilt root prefix excludes =>
      host_isdir w root = true
      /\ ((prefix = "tcl" /\ excludes = tcl_excludes)
          \/ (prefix = "tk" /\ excludes = tk_excludes)
          \/ (Str.startswith "tcl" prefix = true /\ excludes = []))
  | _ => True
  end.

(** What an event of a run of [collect_tcl_tk_files] can be: a scanner
    call, the system-path test or the reading of a script on macOS only;
    each message at its own level, the two macOS messages on macOS only;
    an enumeration as [sound_enumeration] has it; a probe or a directory
    test. *)
Definition lawful_event (w : World) (ev : event) : Prop :=
  match ev with
  | SelectImports _ | GetImports _ | InSystemPath _ | ReadLines _
  | Log INFO MsgNotCollecting | Log WARNING (MsgActiveTcl _) =>
      compat_is_darwin w = true
  | Log ERROR MsgImproperlyInstalled
  | Log ERROR (MsgTclDirNotFound _)
  | Log ERROR (MsgTkDirNotFound _)
  | Log WARNING (MsgModulesDirMissing _) => True
  | Log _ _ => False
  | ExecStatement _ | IsDir _ => True
  | TreeBuilt _ _ _ => sound_enumeration w ev
  end.

(** ** The manifest as a mutable object

    [tcltree] is a list object that the caller goes on using after the
    health check. A computation on it takes the contents of the object,
    and ends, returning or raising, with its run and the contents it
    leaves; [load] reads the object, [store] would replace its contents,
    [lift] is a call that does not touch it. *)
Definition InPlace (A : Type) : Type := list entry -> M A * list entry.

#[global] Instance InPlace_ret : MRet InPlace := fun A a tree => (mret a, tree).

#[global] Instance InPlace_bind : MBind InPlace := fun A B k m tree =>
  match m tree with
  | ((t, Ok a), tree') =>
      match k a tree' with
      | ((t', r), tree'') => ((t ++ t', r), tree'')
      end
  | ((t, Raise e), tree') => ((t, Raise e), tree')
  end.

Definition lift {A} (m : M A) : InPlace A := fun tree => (m, tree).

Definition load : InPlace (list entry) := fun tree => (mret tree, tree).

Definition store (tree' : list entry) : InPlace unit :=
  fun _ => (mret tt, tree').

(** [_warn_if_activetcl_or_teapot_installed] with its argument [tcltree]
    as the object it is: the list comprehension loads it, and no
    statement of the function stores into it. *)
Definition health_check_in_place (w : World) (tcl_root : string)
    : InPlace unit :=
  sys ← lift (in_system_path w tcl_root);
  if sys : bool then mret tt else
  tcltree ← load;
  match first (List.map e_path
                 (List.filter (fun r => Str.endswith "init.tcl" (e_path r))
                    tcltree)) with
  | Raise IndexError => mret tt
  | Raise e => lift (raise e)
  | Ok init_resource =>
      lines ← lift (readlines w init_resource);
      let '(mentions_activetcl, mentions_teapot) :=
        scan_lines lines false false in
      if mentions_activetcl && mentions_teapot then
        lift (logger WARNING (MsgActiveTcl init_resource))
      else mret tt
  end.

(** The step of the assembly that only macOS takes. *)
Definition health_step (w : World) (tcl_root : string) : M unit :=
  if compat_is_darwin w then
    _warn_if_activetcl_or_teapot_installed w tcl_root
      (host_Tree w tcl_root "tcl" tcl_excludes)
  else mret tt.

(** What [collect_tcl_tk_files] runs once both roots are enumerated: the
    health check on macOS, the module collection, the sum. *)
Definition assemble (w : World) (tcl_root tk_root : string) : M (list entry) :=
  (if compat_is_darwin w then
     _warn_if_activetcl_or_teapot_installed w tcl_root
       (host_Tree w tcl_root "tcl" tcl_excludes)
   else mret tt) ≫= fun _ =>
  _collect_tcl_modules w tcl_root ≫= fun tclmodulestree =>
  mret (toc_add (toc_add (host_Tree w tcl_root "tcl" tcl_excludes)
                         (host_Tree w tk_root "tk" tk_excludes))
                tclmodulestree).

(** * Properties *)

Example posix_dirname_ex :
  posixpath.dirname "/usr/lib/tcl8.6" = "/usr/lib"
  /\ posixpath.dirname "/tcl8.6" = "/"
  /\ posixpath.dirname "tcl8.6" = ""
  /\ posixpath.dirname "/usr/lib/tcl8.6/" = "/usr/lib/tcl8.6".
Proof. repeat split; reflexivity. Qed.

Example posix_join_ex :
  posixpath.join "/usr/lib" ["tk8.6"] = "/usr/lib/tk8.6"
  /\ posixpath.join "/usr/lib/tcl8.6" [".."; "tcl8"] = "/usr/lib/tcl8.6/../tcl8"
  /\ posixpath.join "" ["tk8.6"] = "tk8.6"
  /\ posixpath.join "/" ["tk8.6"] = "/tk8.6".
Proof. repeat split; reflexivity. Qed.

Example posix_basename_ex :
  posixpath.basename "/Library/Frameworks/Tcl.framework/Versions/8.5/Tcl" = "Tcl"
  /\ posixpath.basename "Tk" = "Tk"
  /\ posixpath.basename "/usr/lib/" = "".
Proof. repeat split; reflexivity. Qed.

Example str_ex :
  Str.strip "  # ActiveTcl " = "# ActiveTcl"
  /\ Str.lower "TEApot" = "teapot"
  /\ Str.contains "teapot" "set teapot 1" = true
  /\ Str.contains "teapot" "tea pot" = false
  /\ Str.endswith "init.tcl" "/usr/lib/tcl8.6/init.tcl" = true
  /\ Str.split_first "." "8.6" = "8"
  /\ Str.split_first "." "86" = "86".
Proof. repeat split; reflexivity. Qed.


(** ** The monad *)

Lemma bind_call_ok {A B} (ev : event) (a : A) (f : A -> M B) :
  call ev (Ok a) ≫= f = (ev :: trace (f a), result (f a)).
Proof. unfold call, mbind, M_bind. destruct (f a); reflexivity. Qed.

Lemma bind_ret {A B} (a : A) (f : A -> M B) : mret a ≫= f = f a.
Proof. unfold mret, M_ret, mbind, M_bind. destruct (f a); reflexivity. Qed.

Lemma bind_trace_result {A B} (m : M A) (f : A -> M B) (t : list event) (a : A) :
  m = (t, Ok a) -> m ≫= f = (t ++ trace (f a), result (f a)).
Proof. intros ->. unfold mbind, M_bind. destruct (f a); reflexivity. Qed.

(** Running a computation after a successful one: its result is the
    result of the continuation. *)
Lemma result_bind_ok {A B} (m : M A) (f : A -> M B) (a : A) :
  result m = Ok a -> result (m ≫= f) = result (f a).
Proof.
  destruct m as [t r]; simpl; intros ->.
  unfold mbind, M_bind. destruct (f a); reflexivity.
Qed.

(** ** [_find_tcl_tk_dir] *)

(** The standard derivation: the probed library root and, next to it, the
    directory named after the probed Tk version. *)
Lemma find_tcl_tk_dir_ok (w : World) (tcl_root tk_version : string) :
  host_exec_statement w InfoLibrary = Ok tcl_root ->
  host_exec_statement w TkVersion = Ok tk_version ->
  _find_tcl_tk_dir w =
    ([ExecStatement InfoLibrary; ExecStatement TkVersion],
     Ok (Some tcl_root,
         Some (path_join (os_path w) (path_dirname (os_path w) tcl_root)
                 ["tk" +:+ tk_version]))).
Proof.
  intros Hlib Hver. unfold _find_tcl_tk_dir, exec_statement.
  rewrite Hlib, bind_call_ok, Hver, bind_call_ok. reflexivity.
Qed.

(** Whatever the probe answers, the derivation returns two paths or ends
    in the exception of the probe. *)
Lemma find_tcl_tk_dir_shape (w : World) :
  (exists tcl_root tk_root,
      result (_find_tcl_tk_dir w) = Ok (Some tcl_root, Some tk_root))
  \/ (exists e, result (_find_tcl_tk_dir w) = Raise e).
Proof.
  unfold _find_tcl_tk_dir, exec_statement.
  destruct (host_exec_statement w InfoLibrary) as [tcl|e] eqn:Hlib.
  - rewrite bind_call_ok.
    destruct (host_exec_statement w TkVersion) as [ver|e] eqn:Hver.
    + left. rewrite bind_call_ok. simpl. eauto.
    + right. exists e. reflexivity.
  - right. exists e. reflexivity.
Qed.

Lemma find_tcl_tk_dir_scans (w : World) : scans (_find_tcl_tk_dir w) = [].
Proof.
  unfold scans, _find_tcl_tk_dir, exec_statement.
  destruct (host_exec_statement w InfoLibrary) as [tcl|e]; [|reflexivity].
  rewrite bind_call_ok.
  destruct (host_exec_statement w TkVersion) as [ver|e]; [|reflexivity].
  rewrite bind_call_ok. reflexivity.
Qed.

(** ** [_find_tcl_tk] off macOS *)

Lemma find_tcl_tk_non_darwin (w : World) (f : string) :
  compat_is_darwin w = false -> _find_tcl_tk w f = _find_tcl_tk_dir w.
Proof. intros Hd. unfold _find_tcl_tk. rewrite Hd. reflexivity. Qed.

(** C2. Off macOS, [_find_tcl_tk] returns the core-library path reported
    by the interpreter probe, paired with the directory named ["tk"]
    followed by the probed widget version, joined to the parent directory
    of that core-library path; only the two probes are consulted. *)
Theorem find_tcl_tk_non_darwin_pair
    (w : World) (f tcl_root tk_version : string) :
  compat_is_darwin w = false ->
  host_exec_statement w InfoLibrary = Ok tcl_root ->
  host_exec_statement w TkVersion = Ok tk_version ->
  _find_tcl_tk w f =
    ([ExecStatement InfoLibrary; ExecStatement TkVersion],
     Ok (Some tcl_root,
         Some (path_join (os_path w) (path_dirname (os_path w) tcl_root)
                 ["tk" +:+ tk_version]))).
Proof.
  intros Hd Hlib Hver.
  rewrite (find_tcl_tk_non_darwin w f Hd).
  exact (find_tcl_tk_dir_ok w tcl_root tk_version Hlib Hver).
Qed.

Lemma find_tcl_tk_non_darwin_pair_witness :
  compat_is_darwin Hosts.linux = false
  /\ host_exec_statement Hosts.linux InfoLibrary = Ok "/usr/lib/tcl8.6"
  /\ host_exec_statement Hosts.linux TkVersion = Ok "8.6"
  /\ _find_tcl_tk Hosts.linux Hosts.ext =
       ([ExecStatement InfoLibrary; ExecStatement TkVersion],
        Ok (Some "/usr/lib/tcl8.6", Some "/usr/lib/tk8.6")).
Proof.
  split; [reflexivity|]. split; [reflexivity|]. split; [reflexivity|].
  exact (find_tcl_tk_non_darwin_pair Hosts.linux Hosts.ext
           "/usr/lib/tcl8.6" "8.6" eq_refl eq_refl eq_refl).
Defined.

(** C9. Off macOS the result of [_find_tcl_tk] does not depend on the
    extension module it is given, nor on what the binary dependency
    scanner would answer: two hosts with the same [os.path] and the same
    probe answers give the same run for any two arguments, and no run
    calls the scanner. *)
Theorem find_tcl_tk_non_darwin_independent
    (w1 w2 : World) (f1 f2 : string) :
  compat_is_darwin w1 = false ->
  compat_is_darwin w2 = false ->
  os_path w1 = os_path w2 ->
  (forall p, host_exec_statement w1 p = host_exec_statement w2 p) ->
  _find_tcl_tk w1 f1 = _find_tcl_tk w2 f2
  /\ scans (_find_tcl_tk w1 f1) = [].
Proof.
  intros Hd1 Hd2 Hpath Hprobe.
  rewrite (find_tcl_tk_non_darwin w1 f1 Hd1), (find_tcl_tk_non_darwin w2 f2 Hd2).
  split; [|apply find_tcl_tk_dir_scans].
  unfold _find_tcl_tk_dir, exec_statement. rewrite Hpath, !Hprobe. reflexivity.
Qed.

Lemma find_tcl_tk_non_darwin_independent_witness :
  _find_tcl_tk Hosts.linux Hosts.ext = _find_tcl_tk Hosts.linux_scanning "_tkinter.so"
  /\ scans (_find_tcl_tk Hosts.linux Hosts.ext) = [].
Proof.
  apply find_tcl_tk_non_darwin_independent;
    [reflexivity | reflexivity | reflexivity | intros p; reflexivity].
Defined.

(** ** [_find_tcl_tk] on macOS *)

Lemma check_path_to_tcl_cons (w : World) (b : string * string)
    (rest : list (string * string)) :
  check_path_to_tcl w (b :: rest) =
    if system_framework (snd b) then mret (None, None) else _find_tcl_tk_dir w.
Proof. reflexivity. Qed.

Lemma find_tcl_tk_no_images (w : World) (f : string) :
  compat_is_darwin w = true ->
  no_linked_images w f ->
  _find_tcl_tk w f = ([SelectImports f; GetImports f], Ok (None, None)).
Proof.
  intros Hd [Hsel Hget]. unfold _find_tcl_tk, selectImports, getImports.
  rewrite Hd, bind_call_ok, Hsel, bind_call_ok, Hget. reflexivity.
Qed.

Lemma find_tcl_tk_bins (w : World) (f : string) (bins : list (string * string)) :
  compat_is_darwin w = true ->
  bins_in_use w f = Some bins ->
  _find_tcl_tk w f =
    (scan_trace w f ++ trace (check_path_to_tcl w bins),
     result (check_path_to_tcl w bins)).
Proof.
  intros Hd. unfold bins_in_use, scan_trace, _find_tcl_tk, selectImports, getImports.
  rewrite Hd, bind_call_ok.
  destruct (host_selectImports w f) as [|b rest] eqn:Hsel.
  - rewrite bind_call_ok.
    destruct (host_getImports w f) as [|lib libs] eqn:Hget; [discriminate|].
    unfold getitem.
    destruct (basename_mapping w (lib :: libs) !! "Tcl") as [tcl|]; [|discriminate].
    destruct (basename_mapping w (lib :: libs) !! "Tk") as [tk|]; [|discriminate].
    intros [= <-]. rewrite !bind_ret. reflexivity.
  - intros [= <-]. reflexivity.
Qed.

(** The unguarded lookups: with an empty curated subset and a non-empty
    full set, a base name that is not filed ends the run. *)
Lemma find_tcl_tk_lookup_fails (w : World) (f : string) :
  compat_is_darwin w = true ->
  host_selectImports w f = [] ->
  host_getImports w f <> [] ->
  bins_in_use w f = None ->
  exists key,
    (key = "Tcl" \/ key = "Tk")
    /\ basename_mapping w (host_getImports w f) !! key = None
    /\ _find_tcl_tk w f = ([SelectImports f; GetImports f], Raise (KeyError key)).
Proof.
  intros Hd Hsel Hget. unfold bins_in_use, _find_tcl_tk, selectImports, getImports.
  rewrite Hd, bind_call_ok, Hsel, bind_call_ok.
  destruct (host_getImports w f) as [|lib libs]; [congruence|].
  unfold getitem.
  destruct (basename_mapping w (lib :: libs) !! "Tcl") as [tcl|] eqn:Htcl.
  - destruct (basename_mapping w (lib :: libs) !! "Tk") as [tk|] eqn:Htk;
      [discriminate|].
    intros _. exists "Tk". rewrite bind_ret. auto.
  - intros _. exists "Tcl". auto.
Qed.

(** The resolver returns two paths or none. *)
Lemma find_tcl_tk_shape (w : World) (f : string) (a b : option string) :
  result (_find_tcl_tk w f) = Ok (a, b) ->
  (a = None /\ b = None) \/ (exists p q, a = Some p /\ b = Some q).
Proof.
  assert (Hdir : result (_find_tcl_tk_dir w) = Ok (a, b) ->
                 exists p q, a = Some p /\ b = Some q).
  { destruct (find_tcl_tk_dir_shape w) as [(p & q & H)|[e H]];
      rewrite H; [intros [= <- <-]; eauto | discriminate]. }
  assert (Hcheck : forall bins, result (check_path_to_tcl w bins) = Ok (a, b) ->
                   (a = None /\ b = None) \/ (exists p q, a = Some p /\ b = Some q)).
  { intros [|x rest]; [discriminate|]. rewrite check_path_to_tcl_cons.
    destruct (system_framework (snd x)); [intros [= <- <-]|]; auto. }
  destruct (compat_is_darwin w) eqn:Hd.
  - destruct (bins_in_use w f) as [bins|] eqn:Hbins.
    + rewrite (find_tcl_tk_bins w f bins Hd Hbins). apply Hcheck.
    + destruct (host_selectImports w f) as [|x xs] eqn:Hsel.
      * destruct (host_getImports w f) as [|lib libs] eqn:Hget.
        -- rewrite (find_tcl_tk_no_images w f Hd (conj Hsel Hget)).
           intros [= <- <-]; auto.
        -- destruct (find_tcl_tk_lookup_fails w f Hd Hsel) as (key & _ & _ & ->);
             [congruence | assumption | discriminate].
      * unfold bins_in_use in Hbins. rewrite Hsel in Hbins. discriminate.
  - rewrite (find_tcl_tk_non_darwin w f Hd). auto.
Qed.

(** The keys of the mapping are the base names of the libraries. *)
Lemma basename_mapping_None (w : World) (bins : list string) (key : string) :
  basename_mapping w bins !! key = None <->
  Forall (fun lib => path_basename (os_path w) lib <> key) bins.
Proof.
  unfold basename_mapping.
  assert (H : forall (m : gmap string string),
             foldl (fun mapping lib =>
                      <[path_basename (os_path w) lib := lib]> mapping) m bins
               !! key = None <->
             m !! key = None
             /\ Forall (fun lib => path_basename (os_path w) lib <> key) bins).
  { induction bins as [|lib bins IH]; intros m; simpl.
    - split; [intros H; split; [exact H | constructor] | intros [H _]; exact H].
    - rewrite IH, lookup_insert_None, Forall_cons. tauto. }
  rewrite H, lookup_empty. tauto.
Qed.

(** ** [collect_tcl_tk_files]: the runs that collect nothing *)

(** An exception of the resolver crosses [collect_tcl_tk_files]. *)
Lemma collect_resolver_raises (w : World) (f : string) (t : list event) (e : exn) :
  _find_tcl_tk w f = (t, Raise e) ->
  collect_tcl_tk_files w f = (t, Raise e).
Proof. intros H. unfold collect_tcl_tk_files. rewrite H. reflexivity. Qed.

(** C10. On macOS, when the curated subset is empty and the full set of
    linked images is not, and no image of the full set has the base name
    [Tcl], or none has the base name [Tk], the unguarded lookup raises
    [KeyError] on the first of the two names that is missing, and the
    exception leaves [collect_tcl_tk_files] as it left [_find_tcl_tk]:
    no manifest is returned and nothing is logged. *)
Theorem collect_tcl_tk_files_key_error (w : World) (f : string) :
  compat_is_darwin w = true ->
  host_selectImports w f = [] ->
  host_getImports w f <> [] ->
  Forall (fun lib => path_basename (os_path w) lib <> "Tcl") (host_getImports w f)
  \/ Forall (fun lib => path_basename (os_path w) lib <> "Tk") (host_getImports w f) ->
  exists key,
    (key = "Tcl" \/ key = "Tk")
    /\ Forall (fun lib => path_basename (os_path w) lib <> key) (host_getImports w f)
    /\ (Forall (fun lib => path_basename (os_path w) lib <> "Tcl")
          (host_getImports w f) -> key = "Tcl")
    /\ _find_tcl_tk w f = ([SelectImports f; GetImports f], Raise (KeyError key))
    /\ collect_tcl_tk_files w f =
         ([SelectImports f; GetImports f], Raise (KeyError key)).
Proof.
  intros Hd Hsel Hget Hmiss.
  assert (Hbins : bins_in_use w f = None).
  { unfold bins_in_use. rewrite Hsel.
    destruct (host_getImports w f) as [|lib libs] eqn:E; [reflexivity|].
    destruct Hmiss as [H|H]; apply basename_mapping_None in H; rewrite H;
      [reflexivity|].
    destruct (basename_mapping w (lib :: libs) !! "Tcl"); reflexivity. }
  destruct (find_tcl_tk_lookup_fails w f Hd Hsel Hget Hbins)
    as (key & Hkey & Hnone & Hrun).
  exists key. split; [exact Hkey|].
  split; [apply basename_mapping_None; exact Hnone|].
  split; [|split; [exact Hrun | exact (collect_resolver_raises w f _ _ Hrun)]].
  intros Htcl. destruct Hkey as [->| ->]; [reflexivity|].
  exfalso. apply basename_mapping_None in Htcl.
  unfold _find_tcl_tk, selectImports, getImports, getitem in Hrun.
  rewrite Hd, bind_call_ok, Hsel, bind_call_ok in Hrun.
  destruct (host_getImports w f) as [|lib libs]; [congruence|].
  rewrite Htcl in Hrun. discriminate.
Qed.

Lemma collect_tcl_tk_files_key_error_witness :
  exists key,
    (key = "Tcl" \/ key = "Tk")
    /\ Forall (fun lib => posixpath.basename lib <> key)
         (host_getImports Hosts.macos_dylibs Hosts.ext)
    /\ (Forall (fun lib => posixpath.basename lib <> "Tcl")
          (host_getImports Hosts.macos_dylibs Hosts.ext) -> key = "Tcl")
    /\ _find_tcl_tk Hosts.macos_dylibs Hosts.ext =
         ([SelectImports Hosts.ext; GetImports Hosts.ext], Raise (KeyError key))
    /\ collect_tcl_tk_files Hosts.macos_dylibs Hosts.ext =
         ([SelectImports Hosts.ext; GetImports Hosts.ext], Raise (KeyError key)).
Proof.
  apply (collect_tcl_tk_files_key_error Hosts.macos_dylibs Hosts.ext).
  - reflexivity.
  - reflexivity.
  - discriminate.
  - left. repeat constructor; vm_compute; discriminate.
Defined.

(** C1. Whenever the resolved Tcl root is [None], or the resolved Tcl
    root or Tk root is not an existing directory, [collect_tcl_tk_files]
    does not raise and returns the empty sequence; after the resolution
    it only asks for the directories and ends on a single log message. *)
Theorem collect_tcl_tk_files_unresolved
    (w : World) (f : string) (t : list event) (tcl_root tk_root : option string) :
  _find_tcl_tk w f = (t, Ok (tcl_root, tk_root)) ->
  tcl_root = None
  \/ (exists p, tcl_root = Some p /\ host_isdir w p = false)
  \/ (exists p, tk_root = Some p /\ host_isdir w p = false) ->
  result (collect_tcl_tk_files w f) = Ok []
  /\ exists lv m, logged (collect_tcl_tk_files w f) = logged (_find_tcl_tk w f) ++ [Log lv m].
Proof.
  intros Hfind Hbad.
  assert (Hshape := find_tcl_tk_shape w f tcl_root tk_root).
  unfold collect_tcl_tk_files, logged.
  rewrite Hfind in *. rewrite (bind_trace_result _ _ t (tcl_root, tk_root) eq_refl).
  simpl trace. simpl result. rewrite List.filter_app.
  destruct (Hshape eq_refl) as [[-> ->]|(p & q & -> & ->)].
  - destruct (compat_is_darwin w); simpl; eauto.
  - unfold falsy, isdir, logger.
    assert (Hdirs : host_isdir w p = false \/ host_isdir w q = false).
    { destruct Hbad as [H|[(x & [= <-] & H)|(x & [= <-] & H)]];
        [discriminate | auto | auto]. }
    destruct p as [|c p]; simpl Str.is_empty.
    + destruct q, (compat_is_darwin w); simpl; eauto.
    + rewrite andb_false_r. simpl.
      destruct (host_isdir w (String c p)) eqn:Hp; simpl; [|eauto].
      destruct Hdirs as [H|H]; [discriminate|]. rewrite H. simpl. eauto.
Qed.

Lemma collect_tcl_tk_files_unresolved_witness :
  _find_tcl_tk Hosts.linux_no_tk Hosts.ext =
    ([ExecStatement InfoLibrary; ExecStatement TkVersion],
     Ok (Some "/usr/lib/tcl8.6", Some "/usr/lib/tk8.6"))
  /\ host_isdir Hosts.linux_no_tk "/usr/lib/tk8.6" = false
  /\ result (collect_tcl_tk_files Hosts.linux_no_tk Hosts.ext) = Ok []
  /\ exists lv m,
       logged (collect_tcl_tk_files Hosts.linux_no_tk Hosts.ext) =
         logged (_find_tcl_tk Hosts.linux_no_tk Hosts.ext) ++ [Log lv m].
Proof.
  split; [reflexivity|]. split; [reflexivity|].
  apply (collect_tcl_tk_files_unresolved Hosts.linux_no_tk Hosts.ext
           [ExecStatement InfoLibrary; ExecStatement TkVersion]
           (Some "/usr/lib/tcl8.6") (Some "/usr/lib/tk8.6")).
  - reflexivity.
  - right. right. exists "/usr/lib/tk8.6". split; reflexivity.
Defined.

(** ** [_warn_if_activetcl_or_teapot_installed] *)

(** The loop with its early exit computes, as the conjunction of its two
    flags, whether each marker is mentioned by some line. *)
Lemma scan_lines_both (lines : list string) (a t : bool) :
  fst (scan_lines lines a t) && snd (scan_lines lines a t) =
  (a || existsb (mentions "activetcl") lines)
  && (t || existsb (mentions "teapot") lines).
Proof.
  revert a t. induction lines as [|line rest IH]; intros a t.
  - simpl. rewrite !orb_false_r. reflexivity.
  - cbn [scan_lines existsb]. unfold mentions at 1 3.
    destruct (Str.startswith "#" (Str.lower (Str.strip line))); cbn [negb andb orb].
    + apply IH.
    + destruct (Str.contains "activetcl" (Str.lower (Str.strip line)));
      destruct (Str.contains "teapot" (Str.lower (Str.strip line)));
      destruct a, t; cbn [andb orb fst snd]; rewrite ?IH; cbn [andb orb];
        reflexivity.
Qed.

(** The health check on a root that is no system path, with a readable
    script. *)
Lemma health_check_scans (w : World) (tcl_root init_resource : string)
    (tcltree : list entry) (lines : list string) :
  host_in_system_path w tcl_root = false ->
  init_script tcltree = Ok init_resource ->
  host_readlines w init_resource = Ok lines ->
  _warn_if_activetcl_or_teapot_installed w tcl_root tcltree =
    (InSystemPath tcl_root :: ReadLines init_resource ::
       (if existsb (mentions "activetcl") lines
           && existsb (mentions "teapot") lines
        then [Log WARNING (MsgActiveTcl init_resource)] else []),
     Ok tt).
Proof.
  intros Hsys Hinit Hread.
  unfold _warn_if_activetcl_or_teapot_installed, in_system_path, readlines.
  rewrite bind_call_ok, Hsys. unfold init_script in Hinit. rewrite Hinit.
  rewrite Hread, bind_call_ok.
  assert (H := scan_lines_both lines false false).
  destruct (scan_lines lines false false) as [a t].
  cbn [fst snd orb] in H. rewrite H.
  destruct (existsb (mentions "activetcl") lines
            && existsb (mentions "teapot") lines); reflexivity.
Qed.

(** *** Case and white space *)

Lemma lower_char_idempotent (c : ascii) :
  Str.lower_char (Str.lower_char c) = Str.lower_char c.
Proof. destruct c as [[] [] [] [] [] [] [] []]; reflexivity. Qed.

Lemma isspace_lower_char (c : ascii) :
  Str.isspace (Str.lower_char c) = Str.isspace c.
Proof. destruct c as [[] [] [] [] [] [] [] []]; reflexivity. Qed.

Lemma lower_idempotent (s : string) : Str.lower (Str.lower s) = Str.lower s.
Proof.
  induction s as [|c s IH]; [reflexivity|].
  cbn [Str.lower]. rewrite lower_char_idempotent, IH. reflexivity.
Qed.

Lemma lower_lstrip (s : string) :
  Str.lower (Str.lstrip s) = Str.lstrip (Str.lower s).
Proof.
  induction s as [|c s IH]; [reflexivity|].
  cbn [Str.lower Str.lstrip]. rewrite isspace_lower_char.
  destruct (Str.isspace c); [exact IH | reflexivity].
Qed.

Lemma lower_rstrip (s : string) :
  Str.lower (Str.rstrip s) = Str.rstrip (Str.lower s).
Proof.
  induction s as [|c s IH]; [reflexivity|].
  cbn [Str.lower Str.rstrip]. rewrite <- IH, isspace_lower_char.
  destruct (Str.rstrip s) as [|d r]; cbn [Str.lower];
    [destruct (Str.isspace c)|]; reflexivity.
Qed.

Lemma lower_strip (s : string) :
  Str.lower (Str.strip s) = Str.strip (Str.lower s).
Proof. unfold Str.strip. rewrite lower_rstrip, lower_lstrip. reflexivity. Qed.

(** The markers are matched whatever the case of the letters: two lines
    that differ in case only mention the same markers. *)
Lemma mentions_case_insensitive (marker l1 l2 : string) :
  Str.lower l1 = Str.lower l2 -> mentions marker l1 = mentions marker l2.
Proof.
  intros H. unfold mentions. rewrite !lower_strip, H. reflexivity.
Qed.

(** C4. When the health check gets to read the script (the root is no
    system path and [init.tcl] is in the manifest and readable), it emits
    exactly one warning, naming the script, if and only if some line that
    is no comment mentions [activetcl] and some line that is no comment
    mentions [teapot], whatever the case of the letters and whether or not
    the two lines are the same; otherwise it logs nothing. *)
Theorem health_check_warns_iff_both_markers
    (w : World) (tcl_root init_resource : string)
    (tcltree : list entry) (lines : list string) :
  host_in_system_path w tcl_root = false ->
  init_script tcltree = Ok init_resource ->
  host_readlines w init_resource = Ok lines ->
  let run := _warn_if_activetcl_or_teapot_installed w tcl_root tcltree in
  let both :=
    (exists l, In l lines /\ mentions "activetcl" l = true)
    /\ (exists l, In l lines /\ mentions "teapot" l = true) in
  result run = Ok tt
  /\ (both <-> logged run = [Log WARNING (MsgActiveTcl init_resource)])
  /\ (~ both <-> logged run = []).
Proof.
  intros Hsys Hinit Hread run both. subst run.
  rewrite (health_check_scans w tcl_root init_resource tcltree lines Hsys Hinit Hread).
  assert (Hboth : both <->
            existsb (mentions "activetcl") lines
            && existsb (mentions "teapot") lines = true).
  { subst both. rewrite andb_true_iff, !existsb_exists. reflexivity. }
  unfold logged. cbn [trace result List.filter is_log].
  destruct (existsb (mentions "activetcl") lines
            && existsb (mentions "teapot") lines);
    cbn [List.filter is_log]; rewrite Hboth;
    (split; [reflexivity | split; split; intros H; try discriminate;
                           try reflexivity; try (exfalso; apply H; reflexivity)]).
Qed.

Lemma health_check_warns_iff_both_markers_witness :
  let w := Hosts.macos_bundled (Ok Hosts.init_activetcl) in
  let init_resource := Hosts.pylib +:+ "/tcl8.6/init.tcl" in
  host_in_system_path w (Hosts.pylib +:+ "/tcl8.6") = false
  /\ init_script (Hosts.tcl_entries Hosts.pylib) = Ok init_resource
  /\ host_readlines w init_resource = Ok Hosts.init_activetcl
  /\ logged (_warn_if_activetcl_or_teapot_installed w
               (Hosts.pylib +:+ "/tcl8.6") (Hosts.tcl_entries Hosts.pylib))
     = [Log WARNING (MsgActiveTcl init_resource)].
Proof.
  intros w init_resource.
  split; [reflexivity|]. split; [reflexivity|]. split; [reflexivity|].
  apply (health_check_warns_iff_both_markers w (Hosts.pylib +:+ "/tcl8.6")
           init_resource (Hosts.tcl_entries Hosts.pylib) Hosts.init_activetcl
           eq_refl eq_refl eq_refl).
  split.
  - exists (nth 3 Hosts.init_activetcl ""). split; [|reflexivity].
    do 3 right. left. reflexivity.
  - exists (nth 4 Hosts.init_activetcl ""). split; [|reflexivity].
    do 4 right. left. reflexivity.
Defined.

(** The markers of a stock script sit in a comment only: no warning. *)
Example health_check_stock_script :
  _warn_if_activetcl_or_teapot_installed
    (Hosts.macos_bundled (Ok Hosts.init_stock))
    (Hosts.pylib +:+ "/tcl8.6") (Hosts.tcl_entries Hosts.pylib)
  = ([InSystemPath (Hosts.pylib +:+ "/tcl8.6");
      ReadLines (Hosts.pylib +:+ "/tcl8.6/init.tcl")], Ok tt).
Proof. reflexivity. Qed.

Lemma init_script_none (tcltree : list entry) :
  Forall (fun r => Str.endswith "init.tcl" (e_path r) = false) tcltree ->
  init_script tcltree = Raise IndexError.
Proof.
  unfold init_script. induction 1 as [|r rest Hr _ IH]; [reflexivity|].
  cbn [List.filter]. rewrite Hr. exact IH.
Qed.

Lemma init_script_cases (tcltree : list entry) :
  init_script tcltree = Raise IndexError
  \/ exists init_resource, init_script tcltree = Ok init_resource.
Proof.
  unfold init_script.
  destruct (List.map e_path
              (List.filter (fun r => Str.endswith "init.tcl" (e_path r)) tcltree));
    [left | right; eexists]; reflexivity.
Qed.

(** Every event of a listed trace is a warning, the system-path test or
    the reading of a file. *)
Ltac quiet_trace :=
  repeat (apply List.Forall_cons;
          [ first [ left; reflexivity
                  | right; left; reflexivity
                  | right; right; eexists; reflexivity ] | ]);
  apply List.Forall_nil.

(** The health check by its effects: the two silent returns, the
    return on a readable script, where an exception comes from, what is
    logged and what is called. *)
Lemma health_check_quiet
    (w : World) (tcl_root : string) (tcltree : list entry) :
  (host_in_system_path w tcl_root = true ->
     _warn_if_activetcl_or_teapot_installed w tcl_root tcltree =
       ([InSystemPath tcl_root], Ok tt))
  /\ (Forall (fun r => Str.endswith "init.tcl" (e_path r) = false) tcltree ->
        _warn_if_activetcl_or_teapot_installed w tcl_root tcltree =
          ([InSystemPath tcl_root], Ok tt))
  /\ (forall init_resource lines,
        init_script tcltree = Ok init_resource ->
        host_readlines w init_resource = Ok lines ->
        result (_warn_if_activetcl_or_teapot_installed w tcl_root tcltree) = Ok tt)
  /\ (forall e,
        result (_warn_if_activetcl_or_teapot_installed w tcl_root tcltree)
          = Raise e ->
        exists init_resource,
          host_in_system_path w tcl_root = false
          /\ init_script tcltree = Ok init_resource
          /\ host_readlines w init_resource = Raise e)
  /\ (logged (_warn_if_activetcl_or_teapot_installed w tcl_root tcltree) = []
      \/ exists init_resource,
           logged (_warn_if_activetcl_or_teapot_installed w tcl_root tcltree)
             = [Log WARNING (MsgActiveTcl init_resource)])
  /\ Forall (fun ev =>
               is_warning ev = true \/ ev = InSystemPath tcl_root
               \/ exists p, ev = ReadLines p)
       (trace (_warn_if_activetcl_or_teapot_installed w tcl_root tcltree)).
Proof.
  assert (Hsys_run : host_in_system_path w tcl_root = true ->
            _warn_if_activetcl_or_teapot_installed w tcl_root tcltree =
              ([InSystemPath tcl_root], Ok tt)).
  { intros Hsys.
    unfold _warn_if_activetcl_or_teapot_installed, in_system_path.
    rewrite bind_call_ok, Hsys. reflexivity. }
  assert (Hnone_run : init_script tcltree = Raise IndexError ->
            _warn_if_activetcl_or_teapot_installed w tcl_root tcltree =
              ([InSystemPath tcl_root], Ok tt)).
  { intros Hnone.
    unfold _warn_if_activetcl_or_teapot_installed, in_system_path.
    unfold init_script in Hnone.
    rewrite bind_call_ok, Hnone. destruct (host_in_system_path w tcl_root); reflexivity. }
  assert (Hraise_run : forall init_resource e,
            host_in_system_path w tcl_root = false ->
            init_script tcltree = Ok init_resource ->
            host_readlines w init_resource = Raise e ->
            _warn_if_activetcl_or_teapot_installed w tcl_root tcltree =
              ([InSystemPath tcl_root; ReadLines init_resource], Raise e)).
  { intros init_resource e Hsys Hinit Hread.
    unfold _warn_if_activetcl_or_teapot_installed, in_system_path, readlines.
    unfold init_script in Hinit.
    rewrite bind_call_ok, Hsys, Hinit, Hread. reflexivity. }
  split; [exact Hsys_run|].
  split; [intros Hno; apply Hnone_run, init_script_none, Hno|].
  destruct (host_in_system_path w tcl_root) eqn:Hsys.
  { rewrite (Hsys_run eq_refl). unfold logged. cbn.
    split; [reflexivity|]. split; [discriminate|]. split; [left; reflexivity|].
    quiet_trace. }
  destruct (init_script_cases tcltree) as [Hnone|[init_resource Hinit]].
  { rewrite (Hnone_run Hnone). unfold logged. cbn.
    split; [reflexivity|]. split; [discriminate|]. split; [left; reflexivity|].
    quiet_trace. }
  destruct (host_readlines w init_resource) as [lines|e] eqn:Hread.
  - rewrite (health_check_scans w tcl_root init_resource tcltree lines
               Hsys Hinit Hread).
    unfold logged. cbn [trace result].
    split; [reflexivity|]. split; [discriminate|].
    destruct (existsb (mentions "activetcl") lines
              && existsb (mentions "teapot") lines); cbn.
    + split; [right; eauto|].
      quiet_trace.
    + split; [left; reflexivity|].
      quiet_trace.
  - rewrite (Hraise_run init_resource e eq_refl Hinit Hread).
    unfold logged. cbn.
    split; [intros i l Hi Hl; rewrite Hinit in Hi; injection Hi as <-; congruence|].
    split; [intros e' [= <-]; eauto|].
    split; [left; reflexivity|].
    quiet_trace.
Qed.

(** The counterexample to C5 as worded: on a macOS host whose [init.tcl]
    does not decode in the preferred encoding the health check raises. *)
Lemma never_raises_fails :
  ~ never_raises (Hosts.macos_bundled (Raise UnicodeDecodeError))
      (Hosts.pylib +:+ "/tcl8.6") (Hosts.tcl_entries Hosts.pylib).
Proof. unfold never_raises. vm_compute. discriminate. Qed.

(** ** [_collect_tcl_modules] *)

(** [split('.')[0]] is the part of the string before its first dot. *)
Lemma split_first_prefix (sep : ascii) (s : string) :
  (Str.split_first sep s = s
   \/ exists rest, s = Str.split_first sep s +:+ String sep rest)
  /\ Str.contains (String sep "") (Str.split_first sep s) = false.
Proof.
  induction s as [|c s [IHs IHc]]; [split; [left|]; reflexivity|].
  cbn [Str.split_first]. destruct (Ascii.eqb c sep) eqn:Hc.
  - apply Ascii.eqb_eq in Hc. subst c. split; [|reflexivity].
    right. exists s. reflexivity.
  - split.
    + destruct IHs as [->|[rest Hrest]]; [left; reflexivity|].
      right. exists rest.
      change (String c s = String c (Str.split_first sep s +:+ String sep rest)).
      f_equal. exact Hrest.
    + cbn [Str.contains String.prefix].
      destruct (ascii_dec sep c) as [->|_];
        [rewrite Ascii.eqb_refl in Hc; discriminate | exact IHc].
Qed.

(** C6. [_collect_tcl_modules] probes the Tcl version, takes as [major]
    the part of the answer before its first dot, and looks for the
    modules directory [tcl_root/../tcl<major>]; if that is no directory
    it logs one warning naming it and returns the empty sequence,
    otherwise it returns the enumeration of that directory under the
    prefix [tcl<major>], nothing excluded. *)
Theorem collect_tcl_modules_spec (w : World) (tcl_root tcl_version : string) :
  host_exec_statement w InfoTclVersion = Ok tcl_version ->
  let major := Str.split_first "." tcl_version in
  let modules_dirname := "tcl" +:+ major in
  let modules_path := path_join (os_path w) tcl_root [".."; modules_dirname] in
  ((major = tcl_version \/ exists rest, tcl_version = major +:+ String "." rest)
   /\ Str.contains "." major = false)
  /\ (host_isdir w modules_path = false ->
        _collect_tcl_modules w tcl_root =
          ([ExecStatement InfoTclVersion; IsDir modules_path;
            Log WARNING (MsgModulesDirMissing modules_path)], Ok []))
  /\ (host_isdir w modules_path = true ->
        _collect_tcl_modules w tcl_root =
          ([ExecStatement InfoTclVersion; IsDir modules_path;
            TreeBuilt modules_path modules_dirname []],
           Ok (host_Tree w modules_path modules_dirname []))).
Proof.
  intros Hver major modules_dirname modules_path.
  split; [apply split_first_prefix|].
  unfold _collect_tcl_modules, exec_statement, isdir, logger, Tree.
  rewrite Hver, bind_call_ok.
  fold major. fold modules_dirname. fold modules_path.
  rewrite bind_call_ok.
  split; intros ->; reflexivity.
Qed.

Lemma collect_tcl_modules_spec_witness :
  host_exec_statement Hosts.linux InfoTclVersion = Ok "8.6"
  /\ host_isdir Hosts.linux "/usr/lib/tcl8.6/../tcl8" = true
  /\ _collect_tcl_modules Hosts.linux "/usr/lib/tcl8.6" =
       ([ExecStatement InfoTclVersion; IsDir "/usr/lib/tcl8.6/../tcl8";
         TreeBuilt "/usr/lib/tcl8.6/../tcl8" "tcl8" []],
        Ok (Hosts.module_entries "/usr/lib"))
  /\ _collect_tcl_modules Hosts.linux_no_tk "/usr/lib/tcl8.6" =
       ([ExecStatement InfoTclVersion; IsDir "/usr/lib/tcl8.6/../tcl8";
         Log WARNING (MsgModulesDirMissing "/usr/lib/tcl8.6/../tcl8")], Ok []).
Proof.
  split; [reflexivity|]. split; [reflexivity|]. split.
  - exact (proj2 (proj2 (collect_tcl_modules_spec Hosts.linux
                           "/usr/lib/tcl8.6" "8.6" eq_refl)) eq_refl).
  - exact (proj1 (proj2 (collect_tcl_modules_spec Hosts.linux_no_tk
                           "/usr/lib/tcl8.6" "8.6" eq_refl)) eq_refl).
Defined.

(** ** [collect_tcl_tk_files]: the assembly *)

(** The run of [collect_tcl_tk_files] once both roots are resolved to
    directories: the two enumerations, the health check on macOS, the
    modules, and the three manifests added up in that order. *)
Lemma collect_tcl_tk_files_assembly
    (w : World) (f : string) (t : list event) (tcl_root tk_root : string) :
  _find_tcl_tk w f = (t, Ok (Some tcl_root, Some tk_root)) ->
  tcl_root <> "" ->
  host_isdir w tcl_root = true ->
  host_isdir w tk_root = true ->
  result (collect_tcl_tk_files w f) =
    result
      ((if compat_is_darwin w then
          _warn_if_activetcl_or_teapot_installed w tcl_root
            (host_Tree w tcl_root "tcl" tcl_excludes)
        else mret tt) ≫= fun _ =>
       _collect_tcl_modules w tcl_root ≫= fun tclmodulestree =>
       mret (host_Tree w tcl_root "tcl" tcl_excludes
             ++ host_Tree w tk_root "tk" tk_excludes
             ++ tclmodulestree)).
Proof.
  intros Hfind Hne Htcl Htk. unfold collect_tcl_tk_files.
  rewrite (result_bind_ok _ _ (Some tcl_root, Some tk_root))
    by (rewrite Hfind; reflexivity).
  cbv beta iota.
  assert (Hf : falsy (Some tcl_root) = false)
    by (destruct tcl_root; [congruence | reflexivity]).
  rewrite Hf, andb_false_r. cbv iota.
  unfold as_path, isdir, Tree, toc_add.
  rewrite bind_ret, bind_call_ok, Htcl. cbn [negb result].
  rewrite bind_ret, bind_call_ok, Htk. cbn [negb result].
  rewrite !bind_call_ok. cbn [result].
  set (health := if compat_is_darwin w then _ else _).
  destruct health as [th [[]|e]].
  - rewrite !(result_bind_ok (th, Ok tt) _ tt eq_refl).
    destruct (_collect_tcl_modules w tcl_root) as [tm [mods|e]].
    + rewrite !(result_bind_ok (tm, Ok mods) _ mods eq_refl).
      cbn. rewrite <- app_assoc. reflexivity.
    + reflexivity.
  - reflexivity.
Qed.

(** C7. Every run of [collect_tcl_tk_files] that reaches the assembly
    (both roots resolved to existing directories, the health check of
    macOS and the module collection returning) returns the entries of the
    core enumeration, then those of the widget enumeration, then those of
    the module collection, each block in its own order. *)
Theorem collect_tcl_tk_files_concatenation
    (w : World) (f : string) (t : list event) (tcl_root tk_root : string)
    (tclmodulestree : list entry) :
  _find_tcl_tk w f = (t, Ok (Some tcl_root, Some tk_root)) ->
  tcl_root <> "" ->
  host_isdir w tcl_root = true ->
  host_isdir w tk_root = true ->
  (compat_is_darwin w = true ->
   result (_warn_if_activetcl_or_teapot_installed w tcl_root
             (host_Tree w tcl_root "tcl" tcl_excludes)) = Ok tt) ->
  result (_collect_tcl_modules w tcl_root) = Ok tclmodulestree ->
  result (collect_tcl_tk_files w f) =
    Ok (host_Tree w tcl_root "tcl" tcl_excludes
        ++ host_Tree w tk_root "tk" tk_excludes
        ++ tclmodulestree).
Proof.
  intros Hfind Hne Htcl Htk Hhealth Hmods.
  rewrite (collect_tcl_tk_files_assembly w f t tcl_root tk_root Hfind Hne Htcl Htk).
  assert (H : result (if compat_is_darwin w
                      then _warn_if_activetcl_or_teapot_installed w tcl_root
                             (host_Tree w tcl_root "tcl" tcl_excludes)
                      else mret tt) = Ok tt)
    by (destruct (compat_is_darwin w); [auto | reflexivity]).
  rewrite (result_bind_ok _ _ tt H).
  rewrite (result_bind_ok _ _ tclmodulestree Hmods). reflexivity.
Qed.

Lemma collect_tcl_tk_files_concatenation_witness :
  result (collect_tcl_tk_files (Hosts.macos_bundled (Ok Hosts.init_activetcl))
            Hosts.ext) =
    Ok (Hosts.tcl_entries Hosts.pylib ++ Hosts.tk_entries Hosts.pylib
        ++ Hosts.module_entries Hosts.pylib).
Proof.
  apply (collect_tcl_tk_files_concatenation
           (Hosts.macos_bundled (Ok Hosts.init_activetcl)) Hosts.ext
           [SelectImports Hosts.ext; ExecStatement InfoLibrary;
            ExecStatement TkVersion]
           (Hosts.pylib +:+ "/tcl8.6") (Hosts.pylib +:+ "/tk8.6")
           (Hosts.module_entries Hosts.pylib)).
  - reflexivity.
  - discriminate.
  - reflexivity.
  - reflexivity.
  - intros _. reflexivity.
  - reflexivity.
Defined.

(** ** The enumerator and its exclusions *)

Section NodeInduction.

Variable P : TreeModel.node -> Prop.
Hypothesis Hfile : forall name, P (TreeModel.File name).
Hypothesis Hdir :
  forall name children, List.Forall P children -> P (TreeModel.Dir name children).

Lemma node_induction : forall n, P n.
Proof.
  fix IH 1. intros [name|name children].
  - apply Hfile.
  - apply Hdir. induction children as [|c children IHc].
    + apply List.Forall_nil.
    + apply List.Forall_cons; [apply IH | exact IHc].
Qed.

End NodeInduction.

Lemma excluded_nil (name : string) : TreeModel.excluded [] name = false.
Proof. reflexivity. Qed.

(** Membership in the walk of a list of nodes, node by node. *)
Lemma in_walk_all (excludes : list string) (nodes : list TreeModel.node)
    (x : list string * TreeModel.kind) :
  In x (TreeModel.walk_all excludes nodes) <->
  exists n, In n nodes /\ In x (TreeModel.walk excludes n).
Proof. unfold TreeModel.walk_all. apply in_flat_map. Qed.

(** What is under a directory: its own marker, and under its name what
    is under its children. *)
Lemma in_walk_dir (excludes : list string) (name : string)
    (children : list TreeModel.node) (x : list string * TreeModel.kind) :
  TreeModel.excluded excludes name = false ->
  (In x (TreeModel.walk excludes (TreeModel.Dir name children)) <->
   x = ([name], TreeModel.DirectoryMarker)
   \/ exists path,
        x = (name :: path, snd x)
        /\ In (path, snd x) (TreeModel.walk_all excludes children)).
Proof.
  intros Hex. cbn [TreeModel.walk]. rewrite Hex. cbn [In].
  rewrite in_map_iff. fold (TreeModel.walk_all excludes children). split.
  - intros [<-|([path k] & <- & Hin)]; [left; reflexivity|].
    right. exists path. split; [reflexivity | exact Hin].
  - intros [->|(path & Hx & Hin)]; [left; reflexivity|].
    right. exists (path, snd x). split; [symmetry; exact Hx | exact Hin].
Qed.

(** The enumeration under exclusions covers what the plain enumeration
    covers, but for the paths with a component that an exclusion
    matches. *)
Lemma walk_excludes (excludes : list string) (n : TreeModel.node) :
  forall x,
    In x (TreeModel.walk excludes n) <->
    In x (TreeModel.walk [] n) /\ TreeModel.clear_of excludes (fst x) = true.
Proof.
  induction n as [name|name children IH] using node_induction; intros x.
  - cbn [TreeModel.walk]. rewrite excluded_nil.
    destruct (TreeModel.excluded excludes name) eqn:Hex; cbn [In]; split.
    + intros [].
    + intros [[<-|[]] Hclear]. cbn in Hclear. rewrite Hex in Hclear. discriminate.
    + intros [<-|[]]. split; [left; reflexivity|]. cbn. rewrite Hex. reflexivity.
    + intros [[<-|[]] _]. left. reflexivity.
  - destruct (TreeModel.excluded excludes name) eqn:Hex.
    + rewrite (in_walk_dir [] name children x (excluded_nil name)).
      cbn [TreeModel.walk]. rewrite Hex. cbn [In]. split; [intros []|].
      intros [[->|(path & -> & _)] Hclear]; cbn in Hclear;
        rewrite Hex in Hclear; discriminate.
    + rewrite (in_walk_dir excludes name children x Hex).
      rewrite (in_walk_dir [] name children x (excluded_nil name)).
      assert (Hchildren : forall y,
                In y (TreeModel.walk_all excludes children) <->
                In y (TreeModel.walk_all [] children)
                /\ TreeModel.clear_of excludes (fst y) = true).
      { intros y. rewrite !in_walk_all. split.
        - intros (c & Hc & Hy). rewrite List.Forall_forall in IH.
          apply (IH c Hc) in Hy. destruct Hy. eauto.
        - intros [(c & Hc & Hy) Hclear]. exists c. split; [exact Hc|].
          rewrite List.Forall_forall in IH. apply (IH c Hc). auto. }
      split.
      * intros [->|(path & Hx & Hin)].
        -- split; [left; reflexivity|]. cbn. rewrite Hex. reflexivity.
        -- apply Hchildren in Hin. destruct Hin as [Hin Hclear]. split.
           ++ right. exists path. auto.
           ++ rewrite Hx. cbn. rewrite Hex. exact Hclear.
      * intros [[->|(path & Hx & Hin)] Hclear]; [left; reflexivity|].
        right. exists path. split; [exact Hx|]. apply Hchildren.
        split; [exact Hin|]. rewrite Hx in Hclear. cbn in Hclear.
        rewrite Hex in Hclear. exact Hclear.
Qed.

Lemma walk_all_excludes (excludes : list string) (nodes : list TreeModel.node)
    (path : list string) (k : TreeModel.kind) :
  In (path, k) (TreeModel.walk_all excludes nodes) <->
  In (path, k) (TreeModel.walk_all [] nodes)
  /\ TreeModel.clear_of excludes path = true.
Proof.
  rewrite !in_walk_all. split.
  - intros (n & Hn & Hx). apply walk_excludes in Hx. destruct Hx. eauto.
  - intros [(n & Hn & Hx) Hclear]. exists n. split; [exact Hn|].
    apply walk_excludes. auto.
Qed.

(** A pattern without wild cards matches its own text only. *)
Lemma glob_literal (pat : string) :
  Str.contains "*" pat = false ->
  Str.contains "?" pat = false ->
  forall s, TreeModel.glob pat s = String.eqb pat s.
Proof.
  induction pat as [|p pat IH]; intros Hstar Hquest s.
  - destruct s; reflexivity.
  - cbn [Str.contains String.prefix] in Hstar, Hquest.
    destruct (ascii_dec "*" p) as [<-|Hp1].
    { destruct pat; discriminate. }
    destruct (ascii_dec "?" p) as [<-|Hp2].
    { destruct pat; discriminate. }
    cbn [orb] in Hstar, Hquest.
    cbn [TreeModel.glob].
    destruct (Ascii.eqb p "*") eqn:E1.
    { apply Ascii.eqb_eq in E1. congruence. }
    destruct s as [|c s]; [reflexivity|].
    destruct (Ascii.eqb p "?") eqn:E2.
    { apply Ascii.eqb_eq in E2. congruence. }
    cbn [orb String.eqb]. rewrite (IH Hstar Hquest s).
    destruct (Ascii.eqb p c); reflexivity.
Qed.

(** [*] followed by a literal suffix matches the names with that suffix. *)
Lemma glob_star_suffix (suf : string) :
  Str.contains "*" suf = false ->
  Str.contains "?" suf = false ->
  forall s, TreeModel.glob (String "*" suf) s = Str.endswith suf s.
Proof.
  intros Hstar Hquest s. cbn [TreeModel.glob]. rewrite Ascii.eqb_refl.
  induction s as [|c s IH].
  - rewrite (glob_literal suf Hstar Hquest). cbn [Str.endswith].
    rewrite !orb_false_r. apply String.eqb_sym.
  - rewrite (glob_literal suf Hstar Hquest). cbn [Str.endswith].
    rewrite IH. rewrite (String.eqb_sym suf). reflexivity.
Qed.

Lemma excluded_tcl (c : string) :
  TreeModel.excluded tcl_excludes c = false <-> TreeModel.kept_tcl c.
Proof.
  unfold TreeModel.excluded, tcl_excludes, TreeModel.kept_tcl. cbn [existsb].
  rewrite (glob_literal "demos" eq_refl eq_refl),
          (glob_star_suffix ".lib" eq_refl eq_refl),
          (glob_literal "tclConfig.sh" eq_refl eq_refl).
  rewrite orb_false_r, !orb_false_iff, !String.eqb_neq.
  intuition congruence.
Qed.

Lemma excluded_tk (c : string) :
  TreeModel.excluded tk_excludes c = false <-> TreeModel.kept_tk c.
Proof.
  unfold TreeModel.excluded, tk_excludes, TreeModel.kept_tk. cbn [existsb].
  rewrite (glob_literal "demos" eq_refl eq_refl),
          (glob_star_suffix ".lib" eq_refl eq_refl),
          (glob_literal "tkConfig.sh" eq_refl eq_refl).
  rewrite orb_false_r, !orb_false_iff, !String.eqb_neq.
  intuition congruence.
Qed.

Lemma clear_of_Forall (excludes : list string) (kept : string -> Prop)
    (path : list string) :
  (forall c, TreeModel.excluded excludes c = false <-> kept c) ->
  TreeModel.clear_of excludes path = true <-> List.Forall kept path.
Proof.
  intros Hkept. unfold TreeModel.clear_of.
  rewrite forallb_forall, List.Forall_forall.
  split; intros H c Hc.
  - apply Hkept. specialize (H c Hc). destruct (TreeModel.excluded excludes c);
      [discriminate | reflexivity].
  - specialize (H c Hc). apply Hkept in H. rewrite H. reflexivity.
Qed.

(** C8. With the enumerator of the spec, the manifest that
    [collect_tcl_tk_files] builds from the Tcl root lists exactly the
    files and directories under the root on whose relative path no name
    is [demos], ends with [.lib] or is [tclConfig.sh], and the manifest
    built from the Tk root exactly those on whose path no name is
    [demos], ends with [.lib] or is [tkConfig.sh]: every path an
    exclusion matches is left out, with what lies under it, and every
    other path is retained. *)
Theorem collect_tcl_tk_files_excludes
    (w : World) (listdir : string -> list TreeModel.node)
    (f : string) (t : list event) (tcl_root tk_root : string)
    (tclmodulestree : list entry) :
  (forall root prefix excludes,
     host_Tree w root prefix excludes =
       TreeModel.Tree (os_path w) listdir root prefix excludes) ->
  _find_tcl_tk w f = (t, Ok (Some tcl_root, Some tk_root)) ->
  tcl_root <> "" ->
  host_isdir w tcl_root = true ->
  host_isdir w tk_root = true ->
  (compat_is_darwin w = true ->
   result (_warn_if_activetcl_or_teapot_installed w tcl_root
             (host_Tree w tcl_root "tcl" tcl_excludes)) = Ok tt) ->
  result (_collect_tcl_modules w tcl_root) = Ok tclmodulestree ->
  exists tcl_paths tk_paths,
    result (collect_tcl_tk_files w f) =
      Ok (List.map (TreeModel.to_entry (os_path w) tcl_root "tcl") tcl_paths
          ++ List.map (TreeModel.to_entry (os_path w) tk_root "tk") tk_paths
          ++ tclmodulestree)
    /\ (forall path k,
          In (path, k) tcl_paths <->
          In (path, k) (TreeModel.walk_all [] (listdir tcl_root))
          /\ List.Forall TreeModel.kept_tcl path)
    /\ (forall path k,
          In (path, k) tk_paths <->
          In (path, k) (TreeModel.walk_all [] (listdir tk_root))
          /\ List.Forall TreeModel.kept_tk path).
Proof.
  intros Htree Hfind Hne Htcl Htk Hhealth Hmods.
  exists (TreeModel.walk_all tcl_excludes (listdir tcl_root)),
         (TreeModel.walk_all tk_excludes (listdir tk_root)).
  split; [|split].
  - rewrite (collect_tcl_tk_files_assembly w f t tcl_root tk_root
               Hfind Hne Htcl Htk).
    assert (H : result (if compat_is_darwin w
                        then _warn_if_activetcl_or_teapot_installed w tcl_root
                               (host_Tree w tcl_root "tcl" tcl_excludes)
                        else mret tt) = Ok tt)
      by (destruct (compat_is_darwin w); [auto | reflexivity]).
    rewrite (result_bind_ok _ _ tt H).
    rewrite (result_bind_ok _ _ tclmodulestree Hmods).
    rewrite !Htree. reflexivity.
  - intros path k.
    rewrite walk_all_excludes, (clear_of_Forall _ _ path excluded_tcl).
    reflexivity.
  - intros path k.
    rewrite walk_all_excludes, (clear_of_Forall _ _ path excluded_tk).
    reflexivity.
Qed.

Lemma collect_tcl_tk_files_excludes_witness :
  exists tcl_paths tk_paths,
    result (collect_tcl_tk_files TreeModel.linux_fixture Hosts.ext) =
      Ok (List.map (TreeModel.to_entry posixpath.module "/usr/lib/tcl8.6" "tcl")
            tcl_paths
          ++ List.map (TreeModel.to_entry posixpath.module "/usr/lib/tk8.6" "tk")
               tk_paths
          ++ [ Entry "tcl8/8.6" "/usr/lib/tcl8.6/../tcl8/8.6" "DIRECTORY";
               Entry "tcl8/8.6/http-2.9.0.tm"
                 "/usr/lib/tcl8.6/../tcl8/8.6/http-2.9.0.tm" "DATA" ])
    /\ (forall path k,
          In (path, k) tcl_paths <->
          In (path, k) (TreeModel.walk_all [] TreeModel.tcl_fixture)
          /\ List.Forall TreeModel.kept_tcl path)
    /\ (forall path k,
          In (path, k) tk_paths <->
          In (path, k) (TreeModel.walk_all [] TreeModel.tk_fixture)
          /\ List.Forall TreeModel.kept_tk path).
Proof.
  apply (collect_tcl_tk_files_excludes TreeModel.linux_fixture
           TreeModel.listdir_fixture Hosts.ext
           [ExecStatement InfoLibrary; ExecStatement TkVersion]
           "/usr/lib/tcl8.6" "/usr/lib/tk8.6").
  - intros root prefix excludes. reflexivity.
  - reflexivity.
  - discriminate.
  - reflexivity.
  - reflexivity.
  - discriminate.
  - reflexivity.
Defined.

(** The fixture of the spec: [demos/], a [*.lib] file and [tclConfig.sh]
    are left out of the Tcl manifest, their siblings are kept. *)
Example tcl_fixture_manifest :
  TreeModel.Tree posixpath.module TreeModel.listdir_fixture
    "/usr/lib/tcl8.6" "tcl" tcl_excludes =
  [ Entry "tcl/init.tcl" "/usr/lib/tcl8.6/init.tcl" "DATA";
    Entry "tcl/encoding" "/usr/lib/tcl8.6/encoding" "DIRECTORY";
    Entry "tcl/encoding/ascii.enc" "/usr/lib/tcl8.6/encoding/ascii.enc" "DATA";
    Entry "tcl/tkConfig.sh" "/usr/lib/tcl8.6/tkConfig.sh" "DATA" ].
Proof. reflexivity. Qed.

(** ** [posixpath]: the sibling of a directory *)

Lemma has_sep_app (parent name : string) :
  posixpath.has_sep (parent +:+ "/" +:+ name) = true.
Proof.
  unfold posixpath.has_sep. induction parent as [|c parent IH].
  - destruct name; reflexivity.
  - change (String c parent +:+ "/" +:+ name)
      with (String c (parent +:+ "/" +:+ name)).
    cbn [Str.contains]. rewrite IH. apply orb_true_r.
Qed.

Lemma head_of_app (parent name : string) :
  posixpath.has_sep name = false ->
  posixpath.head_of (parent +:+ "/" +:+ name) = parent +:+ "/".
Proof.
  intros Hname. induction parent as [|c parent IH].
  - change ("" +:+ "/" +:+ name) with (String "/" name).
    cbn [posixpath.head_of]. rewrite Hname. reflexivity.
  - change (String c parent +:+ "/" +:+ name)
      with (String c (parent +:+ "/" +:+ name)).
    cbn [posixpath.head_of]. rewrite has_sep_app, IH. reflexivity.
Qed.

Lemma endswith_cons (suf : string) (c : ascii) (s : string) :
  Str.endswith suf (String c s) =
    String.eqb (String c s) suf || Str.endswith suf s.
Proof. reflexivity. Qed.

Lemma all_sep_endswith (s : string) :
  posixpath.all_sep s = true -> s <> "" -> Str.endswith "/" s = true.
Proof.
  induction s as [|c s IH]; [congruence|]. intros Hall _.
  cbn [posixpath.all_sep] in Hall. apply andb_true_iff in Hall.
  destruct Hall as [Hc Hs]. apply Ascii.eqb_eq in Hc. subst c.
  destruct s as [|d s]; [reflexivity|].
  rewrite endswith_cons, (IH Hs) by discriminate. apply orb_true_r.
Qed.

Lemma all_sep_app (parent : string) :
  posixpath.all_sep (parent +:+ "/") = posixpath.all_sep parent.
Proof.
  induction parent as [|c parent IH]; [reflexivity|].
  change (String c parent +:+ "/") with (String c (parent +:+ "/")).
  cbn [posixpath.all_sep]. rewrite IH. reflexivity.
Qed.

Lemma endswith_tail (c : ascii) (s : string) :
  Str.endswith "/" (String c s) = false ->
  Str.endswith "/" s = false /\ (s = "" -> c <> posixpath.sep).
Proof.
  rewrite endswith_cons. intros H. apply orb_false_iff in H.
  destruct H as [Heq Hs].
  split; [exact Hs|]. intros -> ->. discriminate.
Qed.

Lemma rstrip_sep_app (parent : string) :
  Str.endswith "/" parent = false ->
  posixpath.rstrip_sep (parent +:+ "/") = parent.
Proof.
  induction parent as [|c parent IH]; [reflexivity|]. intros Hend.
  apply endswith_tail in Hend. destruct Hend as [Hend Hc].
  change (String c parent +:+ "/") with (String c (parent +:+ "/")).
  cbn [posixpath.rstrip_sep]. rewrite (IH Hend).
  destruct parent as [|d parent]; [|reflexivity].
  destruct (Ascii.eqb c posixpath.sep) eqn:E; [|reflexivity].
  apply Ascii.eqb_eq in E. exfalso. apply Hc; auto.
Qed.

(** The parent of [parent/name] is [parent]. *)
Lemma posix_dirname_child (parent name : string) :
  parent <> "" ->
  Str.endswith "/" parent = false ->
  posixpath.has_sep name = false ->
  posixpath.dirname (parent +:+ "/" +:+ name) = parent.
Proof.
  intros Hne Hend Hname. unfold posixpath.dirname.
  rewrite (head_of_app parent name Hname), all_sep_app.
  assert (Hall : posixpath.all_sep parent = false).
  { destruct (posixpath.all_sep parent) eqn:E; [|reflexivity].
    rewrite (all_sep_endswith parent E Hne) in Hend. discriminate. }
  rewrite Hall.
  assert (Hempty : Str.is_empty (parent +:+ "/") = false)
    by (destruct parent; reflexivity).
  rewrite Hempty. cbn [negb andb]. apply rstrip_sep_app, Hend.
Qed.

(** [parent] joined with a relative name is [parent/name]. *)
Lemma posix_join_child (parent name : string) :
  parent <> "" ->
  Str.endswith "/" parent = false ->
  Str.startswith "/" name = false ->
  posixpath.join parent [name] = parent +:+ "/" +:+ name.
Proof.
  intros Hne Hend Hname. unfold posixpath.join. cbn [fold_left].
  unfold posixpath.join_step. rewrite Hname, Hend.
  destruct parent; [congruence | reflexivity].
Qed.

(** C2 on a [posixpath] host: for a core library [parent/name] the widget
    root is its sibling [parent/tk<version>]. *)
Corollary find_tcl_tk_posix_sibling
    (w : World) (f parent name tk_version : string) :
  compat_is_darwin w = false ->
  os_path w = posixpath.module ->
  parent <> "" ->
  Str.endswith "/" parent = false ->
  posixpath.has_sep name = false ->
  host_exec_statement w InfoLibrary = Ok (parent +:+ "/" +:+ name) ->
  host_exec_statement w TkVersion = Ok tk_version ->
  result (_find_tcl_tk w f) =
    Ok (Some (parent +:+ "/" +:+ name),
        Some (parent +:+ "/" +:+ "tk" +:+ tk_version)).
Proof.
  intros Hd Hpath Hne Hend Hname Hlib Hver.
  rewrite (find_tcl_tk_non_darwin w f Hd),
          (find_tcl_tk_dir_ok w _ _ Hlib Hver), Hpath.
  cbn [result path_join path_dirname posixpath.module].
  rewrite (posix_dirname_child parent name Hne Hend Hname).
  rewrite (posix_join_child parent ("tk" +:+ tk_version) Hne Hend eq_refl).
  reflexivity.
Qed.

(** ** Runs on the hosts *)

Example collect_on_linux :
  result (collect_tcl_tk_files Hosts.linux Hosts.ext) =
    Ok (Hosts.tcl_entries "/usr/lib" ++ Hosts.tk_entries "/usr/lib"
        ++ Hosts.module_entries "/usr/lib").
Proof. reflexivity. Qed.

Example collect_on_macos_hidden :
  collect_tcl_tk_files Hosts.macos_hidden Hosts.ext =
    ([SelectImports Hosts.ext; GetImports Hosts.ext; Log INFO MsgNotCollecting],
     Ok []).
Proof. reflexivity. Qed.

Example collect_on_macos_system :
  collect_tcl_tk_files Hosts.macos_system Hosts.ext =
    ([SelectImports Hosts.ext; GetImports Hosts.ext; Log INFO MsgNotCollecting],
     Ok []).
Proof. reflexivity. Qed.

(** An [init.tcl] that does not decode ends the whole collection. *)
Example collect_on_macos_undecodable :
  result (collect_tcl_tk_files (Hosts.macos_bundled (Raise UnicodeDecodeError))
            Hosts.ext) = Raise UnicodeDecodeError.
Proof. reflexivity. Qed.

(** * Further properties of the module *)

(** ** Runs, step by step *)

Lemma trace_bind {A B} (m : M A) (f : A -> M B) :
  trace (m ≫= f) =
    trace m ++ match result m with Ok a => trace (f a) | Raise _ => [] end.
Proof.
  destruct m as [t [a|e]]; unfold mbind, M_bind, trace, result; simpl.
  - destruct (f a); reflexivity.
  - symmetry. apply app_nil_r.
Qed.

Lemma result_bind {A B} (m : M A) (f : A -> M B) :
  result (m ≫= f) =
    match result m with Ok a => result (f a) | Raise e => Raise e end.
Proof.
  destruct m as [t [a|e]]; unfold mbind, M_bind, result; simpl;
    [destruct (f a)|]; reflexivity.
Qed.

(** A property of every event of a run, bind by bind. *)
Lemma Forall_trace_bind {A B} (P : event -> Prop) (m : M A) (f : A -> M B) :
  List.Forall P (trace m) ->
  (forall a, result m = Ok a -> List.Forall P (trace (f a))) ->
  List.Forall P (trace (m ≫= f)).
Proof.
  intros Hm Hf. rewrite trace_bind. apply List.Forall_app. split; [exact Hm|].
  destruct (result m) as [a|e]; [apply Hf; reflexivity | apply List.Forall_nil].
Qed.

Lemma Forall_trace_call {A} (P : event -> Prop) (ev : event) (r : outcome A) :
  P ev -> List.Forall P (trace (call ev r)).
Proof. intros H. apply List.Forall_cons; [exact H | apply List.Forall_nil]. Qed.

Lemma falsy_some (p : string) : p <> "" -> falsy (Some p) = false.
Proof. destruct p; [congruence | reflexivity]. Qed.

(** ** The exits of [collect_tcl_tk_files] before the enumeration *)

Section Exits.

Variable w : World.
Variable f : string.
Variable t : list event.
Variables tcl_root tk_root : option string.
Hypothesis Hfind : _find_tcl_tk w f = (t, Ok (tcl_root, tk_root)).

Lemma collect_run_skip :
  compat_is_darwin w = true -> falsy tcl_root = true -> falsy tk_root = true ->
  collect_tcl_tk_files w f = (t ++ [Log INFO MsgNotCollecting], Ok []).
Proof using Hfind.
  intros Hd Ha Hb. unfold collect_tcl_tk_files.
  rewrite (bind_trace_result _ _ t (tcl_root, tk_root) Hfind).
  cbv beta iota. rewrite Hd, Ha, Hb. reflexivity.
Qed.

Lemma collect_run_improper :
  falsy tcl_root = true ->
  compat_is_darwin w && falsy tk_root = false ->
  collect_tcl_tk_files w f = (t ++ [Log ERROR MsgImproperlyInstalled], Ok []).
Proof using Hfind.
  intros Ha Hb. unfold collect_tcl_tk_files.
  rewrite (bind_trace_result _ _ t (tcl_root, tk_root) Hfind).
  cbv beta iota. rewrite Ha, andb_true_r, Hb. reflexivity.
Qed.

Lemma collect_run_no_tcl (p : string) :
  tcl_root = Some p -> p <> "" -> host_isdir w p = false ->
  collect_tcl_tk_files w f =
    (t ++ [IsDir p; Log ERROR (MsgTclDirNotFound p)], Ok []).
Proof using Hfind.
  intros Ha Hp Hdir. unfold collect_tcl_tk_files.
  rewrite (bind_trace_result _ _ t (tcl_root, tk_root) Hfind).
  cbv beta iota. rewrite Ha, (falsy_some p Hp), andb_false_r.
  unfold as_path, isdir. rewrite bind_ret, bind_call_ok, Hdir. reflexivity.
Qed.

Lemma collect_run_no_tk (p q : string) :
  tcl_root = Some p -> tk_root = Some q -> p <> "" ->
  host_isdir w p = true -> host_isdir w q = false ->
  collect_tcl_tk_files w f =
    (t ++ [IsDir p; IsDir q; Log ERROR (MsgTkDirNotFound q)], Ok []).
Proof using Hfind.
  intros Ha Hb Hp Hdp Hdq. unfold collect_tcl_tk_files.
  rewrite (bind_trace_result _ _ t (tcl_root, tk_root) Hfind).
  cbv beta iota. rewrite Ha, Hb, (falsy_some p Hp), andb_false_r.
  unfold as_path, isdir. rewrite bind_ret, bind_call_ok, Hdp. cbn [negb].
  rewrite bind_ret, bind_call_ok, Hdq. reflexivity.
Qed.

Lemma collect_run_assemble (p q : string) :
  tcl_root = Some p -> tk_root = Some q -> p <> "" ->
  host_isdir w p = true -> host_isdir w q = true ->
  collect_tcl_tk_files w f =
    (t ++ [IsDir p; IsDir q; TreeBuilt p "tcl" tcl_excludes;
           TreeBuilt q "tk" tk_excludes] ++ trace (assemble w p q),
     result (assemble w p q)).
Proof using Hfind.
  intros Ha Hb Hp Hdp Hdq. unfold collect_tcl_tk_files.
  rewrite (bind_trace_result _ _ t (tcl_root, tk_root) Hfind).
  cbv beta iota. rewrite Ha, Hb, (falsy_some p Hp), andb_false_r.
  unfold as_path, isdir, Tree. rewrite bind_ret, bind_call_ok, Hdp. cbn [negb].
  rewrite bind_ret, bind_call_ok, Hdq. cbn [negb].
  rewrite !bind_call_ok. reflexivity.
Qed.

End Exits.

(** On macOS both skip cases leave the resolver after the scanner calls
    alone. *)
Lemma find_tcl_tk_skip_run (w : World) (f : string) :
  compat_is_darwin w = true ->
  no_linked_images w f \/ tcl_image_of_system w f ->
  _find_tcl_tk w f = (scan_trace w f, Ok (None, None)).
Proof.
  intros Hd [Hnone|(b & rest & Hbins & Hsys)].
  - rewrite (find_tcl_tk_no_images w f Hd Hnone). unfold scan_trace.
    destruct Hnone as [-> _]. reflexivity.
  - rewrite (find_tcl_tk_bins w f _ Hd Hbins), check_path_to_tcl_cons, Hsys.
    cbn [trace result mret M_ret]. rewrite app_nil_r. reflexivity.
Qed.

(** X1. Off macOS a failure of the interpreter probe is not caught: when
    the probe of the library root raises, [collect_tcl_tk_files] ends in
    that exception after this one call, and when the probe of the Tk
    version raises, after these two calls; nothing is logged and the file
    system is not looked at. *)
Theorem collect_tcl_tk_files_probe_failure (w : World) (f : string) (e : exn) :
  compat_is_darwin w = false ->
  (host_exec_statement w InfoLibrary = Raise e ->
   collect_tcl_tk_files w f = ([ExecStatement InfoLibrary], Raise e))
  /\ (forall tcl_root,
        host_exec_statement w InfoLibrary = Ok tcl_root ->
        host_exec_statement w TkVersion = Raise e ->
        collect_tcl_tk_files w f =
          ([ExecStatement InfoLibrary; ExecStatement TkVersion], Raise e)).
Proof.
  intros Hd. split.
  - intros Hlib. apply collect_resolver_raises.
    rewrite (find_tcl_tk_non_darwin w f Hd).
    unfold _find_tcl_tk_dir, exec_statement. rewrite Hlib. reflexivity.
  - intros tcl_root Hlib Hver. apply collect_resolver_raises.
    rewrite (find_tcl_tk_non_darwin w f Hd).
    unfold _find_tcl_tk_dir, exec_statement.
    rewrite Hlib, bind_call_ok, Hver. reflexivity.
Qed.

Lemma collect_tcl_tk_files_probe_failure_witness :
  collect_tcl_tk_files (Faults.linux_failing InfoLibrary) Hosts.ext =
    ([ExecStatement InfoLibrary], Raise InterpreterProbeError)
  /\ collect_tcl_tk_files (Faults.linux_failing TkVersion) Hosts.ext =
       ([ExecStatement InfoLibrary; ExecStatement TkVersion],
        Raise InterpreterProbeError).
Proof.
  split.
  - exact (proj1 (collect_tcl_tk_files_probe_failure
                    (Faults.linux_failing InfoLibrary) Hosts.ext
                    InterpreterProbeError eq_refl) eq_refl).
  - exact (proj2 (collect_tcl_tk_files_probe_failure
                    (Faults.linux_failing TkVersion) Hosts.ext
                    InterpreterProbeError eq_refl)
             "/usr/lib/tcl8.6" eq_refl eq_refl).
Defined.



(** X3. Off macOS, when the interpreter prints nothing for the library
    root (the empty string), the installation is reported as improperly
    installed at level ERROR and the empty manifest is returned; no
    directory is tested, although the Tk root was computed. *)
Theorem collect_tcl_tk_files_silent_probe
    (w : World) (f tk_version : string) :
  compat_is_darwin w = false ->
  host_exec_statement w InfoLibrary = Ok "" ->
  host_exec_statement w TkVersion = Ok tk_version ->
  collect_tcl_tk_files w f =
    ([ExecStatement InfoLibrary; ExecStatement TkVersion;
      Log ERROR MsgImproperlyInstalled], Ok []).
Proof.
  intros Hd Hlib Hver.
  assert (Hfind := find_tcl_tk_dir_ok w "" tk_version Hlib Hver).
  rewrite <- (find_tcl_tk_non_darwin w f Hd) in Hfind.
  rewrite (collect_run_improper w f _ _ _ Hfind eq_refl); [reflexivity|].
  rewrite Hd. reflexivity.
Qed.

Lemma collect_tcl_tk_files_silent_probe_witness :
  collect_tcl_tk_files Faults.linux_silent Hosts.ext =
    ([ExecStatement InfoLibrary; ExecStatement TkVersion;
      Log ERROR MsgImproperlyInstalled], Ok []).
Proof.
  exact (collect_tcl_tk_files_silent_probe Faults.linux_silent Hosts.ext "8.6"
           eq_refl eq_refl eq_refl).
Defined.

(** X4. When a resolved root is no directory, the one error logged names
    that directory, and the roots are tested in order: with the Tcl
    directory missing the Tk directory is not tested at all, and the Tk
    directory is reported only if the Tcl directory exists. *)
Theorem collect_tcl_tk_files_missing_directory
    (w : World) (f : string) (t : list event) (tcl_root tk_root : string) :
  _find_tcl_tk w f = (t, Ok (Some tcl_root, Some tk_root)) ->
  tcl_root <> "" ->
  (host_isdir w tcl_root = false ->
   collect_tcl_tk_files w f =
     (t ++ [IsDir tcl_root; Log ERROR (MsgTclDirNotFound tcl_root)], Ok []))
  /\ (host_isdir w tcl_root = true ->
      host_isdir w tk_root = false ->
      collect_tcl_tk_files w f =
        (t ++ [IsDir tcl_root; IsDir tk_root;
               Log ERROR (MsgTkDirNotFound tk_root)], Ok [])).
Proof.
  intros Hfind Hne. split.
  - intros Hdir. exact (collect_run_no_tcl w f t _ _ Hfind tcl_root eq_refl Hne Hdir).
  - intros Hp Hq.
    exact (collect_run_no_tk w f t _ _ Hfind tcl_root tk_root eq_refl eq_refl
             Hne Hp Hq).
Qed.

Lemma collect_tcl_tk_files_missing_directory_witness :
  collect_tcl_tk_files Faults.linux_no_tcl Hosts.ext =
    ([ExecStatement InfoLibrary; ExecStatement TkVersion;
      IsDir "/usr/lib/tcl8.6"; Log ERROR (MsgTclDirNotFound "/usr/lib/tcl8.6")],
     Ok [])
  /\ collect_tcl_tk_files Hosts.linux_no_tk Hosts.ext =
       ([ExecStatement InfoLibrary; ExecStatement TkVersion;
         IsDir "/usr/lib/tcl8.6"; IsDir "/usr/lib/tk8.6";
         Log ERROR (MsgTkDirNotFound "/usr/lib/tk8.6")], Ok []).
Proof.
  split.
  - exact (proj1 (collect_tcl_tk_files_missing_directory Faults.linux_no_tcl
                    Hosts.ext [ExecStatement InfoLibrary; ExecStatement TkVersion]
                    "/usr/lib/tcl8.6" "/usr/lib/tk8.6" eq_refl ltac:(discriminate))
             eq_refl).
  - exact (proj2 (collect_tcl_tk_files_missing_directory Hosts.linux_no_tk
                    Hosts.ext [ExecStatement InfoLibrary; ExecStatement TkVersion]
                    "/usr/lib/tcl8.6" "/usr/lib/tk8.6" eq_refl ltac:(discriminate))
             eq_refl eq_refl).
Defined.

(** ** The assembly: health check, modules, sum *)

Lemma health_check_raises (w : World) (tcl_root init_resource : string)
    (tcltree : list entry) (e : exn) :
  host_in_system_path w tcl_root = false ->
  init_script tcltree = Ok init_resource ->
  host_readlines w init_resource = Raise e ->
  _warn_if_activetcl_or_teapot_installed w tcl_root tcltree =
    ([InSystemPath tcl_root; ReadLines init_resource], Raise e).
Proof.
  intros Hsys Hinit Hread.
  unfold _warn_if_activetcl_or_teapot_installed, in_system_path, readlines.
  unfold init_script in Hinit.
  rewrite bind_call_ok, Hsys, Hinit, Hread. reflexivity.
Qed.

Lemma health_check_system_path (w : World) (tcl_root : string)
    (tcltree : list entry) :
  host_in_system_path w tcl_root = true ->
  _warn_if_activetcl_or_teapot_installed w tcl_root tcltree =
    ([InSystemPath tcl_root], Ok tt).
Proof.
  intros Hsys. unfold _warn_if_activetcl_or_teapot_installed, in_system_path.
  rewrite bind_call_ok, Hsys. reflexivity.
Qed.

Lemma health_check_no_script (w : World) (tcl_root : string)
    (tcltree : list entry) :
  init_script tcltree = Raise IndexError ->
  _warn_if_activetcl_or_teapot_installed w tcl_root tcltree =
    ([InSystemPath tcl_root], Ok tt).
Proof.
  intros Hnone. unfold _warn_if_activetcl_or_teapot_installed, in_system_path.
  unfold init_script in Hnone. rewrite bind_call_ok, Hnone.
  destruct (host_in_system_path w tcl_root); reflexivity.
Qed.

(** The health check by cases: it stops at the system-path test, or it
    reads the script and returns, or the reading raises. *)
Lemma health_check_cases (w : World) (tcl_root : string) (tcltree : list entry) :
  _warn_if_activetcl_or_teapot_installed w tcl_root tcltree =
    ([InSystemPath tcl_root], Ok tt)
  \/ (exists init_resource lines,
        init_script tcltree = Ok init_resource
        /\ host_readlines w init_resource = Ok lines
        /\ result (_warn_if_activetcl_or_teapot_installed w tcl_root tcltree)
           = Ok tt
        /\ exists logs,
             trace (_warn_if_activetcl_or_teapot_installed w tcl_root tcltree)
               = InSystemPath tcl_root :: ReadLines init_resource :: logs
             /\ (logs = [] \/ logs = [Log WARNING (MsgActiveTcl init_resource)]))
  \/ (exists init_resource e,
        host_in_system_path w tcl_root = false
        /\ init_script tcltree = Ok init_resource
        /\ host_readlines w init_resource = Raise e
        /\ _warn_if_activetcl_or_teapot_installed w tcl_root tcltree =
             ([InSystemPath tcl_root; ReadLines init_resource], Raise e)).
Proof.
  destruct (host_in_system_path w tcl_root) eqn:Hsys.
  { left. apply health_check_system_path, Hsys. }
  destruct (init_script_cases tcltree) as [Hnone|[init_resource Hinit]].
  { left. apply health_check_no_script, Hnone. }
  destruct (host_readlines w init_resource) as [lines|e] eqn:Hread.
  - right. left. exists init_resource, lines.
    rewrite (health_check_scans w tcl_root init_resource tcltree lines
               Hsys Hinit Hread).
    split; [exact Hinit|]. split; [exact Hread|]. split; [reflexivity|].
    eexists. split; [reflexivity|].
    destruct (existsb (mentions "activetcl") lines
              && existsb (mentions "teapot") lines); auto.
  - right. right. exists init_resource, e.
    rewrite (health_check_raises w tcl_root init_resource tcltree e
               Hsys Hinit Hread). auto.
Qed.

Lemma collect_tcl_modules_raises (w : World) (tcl_root : string) (e : exn) :
  host_exec_statement w InfoTclVersion = Raise e ->
  _collect_tcl_modules w tcl_root = ([ExecStatement InfoTclVersion], Raise e).
Proof.
  intros Hver. unfold _collect_tcl_modules, exec_statement.
  rewrite Hver. reflexivity.
Qed.

(** The module collection after a probe that answers. *)
Lemma collect_tcl_modules_answers (w : World) (tcl_root tcl_version : string) :
  host_exec_statement w InfoTclVersion = Ok tcl_version ->
  let modules_dirname := "tcl" +:+ Str.split_first "." tcl_version in
  let modules_path := path_join (os_path w) tcl_root [".."; modules_dirname] in
  _collect_tcl_modules w tcl_root =
    if host_isdir w modules_path then
      ([ExecStatement InfoTclVersion; IsDir modules_path;
        TreeBuilt modules_path modules_dirname []],
       Ok (host_Tree w modules_path modules_dirname []))
    else
      ([ExecStatement InfoTclVersion; IsDir modules_path;
        Log WARNING (MsgModulesDirMissing modules_path)], Ok []).
Proof.
  intros Hver modules_dirname modules_path.
  unfold _collect_tcl_modules, exec_statement, isdir, logger, Tree.
  rewrite Hver, bind_call_ok.
  fold modules_dirname. fold modules_path. rewrite bind_call_ok.
  destruct (host_isdir w modules_path); reflexivity.
Qed.

Lemma assemble_result (w : World) (tcl_root tk_root : string) :
  result (assemble w tcl_root tk_root) =
    match result (health_step w tcl_root) with
    | Ok _ =>
        match result (_collect_tcl_modules w tcl_root) with
        | Ok tclmodulestree =>
            Ok (host_Tree w tcl_root "tcl" tcl_excludes
                ++ host_Tree w tk_root "tk" tk_excludes ++ tclmodulestree)
        | Raise e => Raise e
        end
    | Raise e => Raise e
    end.
Proof.
  unfold assemble. fold (health_step w tcl_root). rewrite result_bind.
  destruct (result (health_step w tcl_root)); [|reflexivity].
  rewrite result_bind.
  destruct (result (_collect_tcl_modules w tcl_root)); [|reflexivity].
  unfold toc_add. cbn. rewrite <- app_assoc. reflexivity.
Qed.

Lemma assemble_trace (w : World) (tcl_root tk_root : string) :
  trace (assemble w tcl_root tk_root) =
    trace (health_step w tcl_root)
    ++ match result (health_step w tcl_root) with
       | Ok _ => trace (_collect_tcl_modules w tcl_root)
       | Raise _ => []
       end.
Proof.
  unfold assemble. fold (health_step w tcl_root). rewrite trace_bind.
  destruct (result (health_step w tcl_root)); [|reflexivity].
  rewrite trace_bind.
  destruct (result (_collect_tcl_modules w tcl_root)); cbn;
    rewrite app_nil_r; reflexivity.
Qed.

(** X5. A failure of the Tcl version probe comes late: both roots have
    been tested and enumerated (and on macOS the health check has run)
    when [_collect_tcl_modules] starts the interpreter, and its exception
    ends [collect_tcl_tk_files] with the two manifests discarded. *)
Theorem collect_tcl_tk_files_version_probe_failure
    (w : World) (f : string) (t : list event) (tcl_root tk_root : string)
    (e : exn) :
  _find_tcl_tk w f = (t, Ok (Some tcl_root, Some tk_root)) ->
  tcl_root <> "" ->
  host_isdir w tcl_root = true ->
  host_isdir w tk_root = true ->
  result (health_step w tcl_root) = Ok tt ->
  host_exec_statement w InfoTclVersion = Raise e ->
  collect_tcl_tk_files w f =
    (t ++ [IsDir tcl_root; IsDir tk_root; TreeBuilt tcl_root "tcl" tcl_excludes;
           TreeBuilt tk_root "tk" tk_excludes]
       ++ trace (health_step w tcl_root) ++ [ExecStatement InfoTclVersion],
     Raise e).
Proof.
  intros Hfind Hne Hp Hq Hhealth Hver.
  rewrite (collect_run_assemble w f t _ _ Hfind tcl_root tk_root
             eq_refl eq_refl Hne Hp Hq).
  rewrite assemble_result, assemble_trace, Hhealth.
  rewrite (collect_tcl_modules_raises w tcl_root e Hver). reflexivity.
Qed.

Lemma collect_tcl_tk_files_version_probe_failure_witness :
  collect_tcl_tk_files (Faults.linux_failing InfoTclVersion) Hosts.ext =
    ([ExecStatement InfoLibrary; ExecStatement TkVersion;
      IsDir "/usr/lib/tcl8.6"; IsDir "/usr/lib/tk8.6";
      TreeBuilt "/usr/lib/tcl8.6" "tcl" tcl_excludes;
      TreeBuilt "/usr/lib/tk8.6" "tk" tk_excludes;
      ExecStatement InfoTclVersion],
     Raise InterpreterProbeError).
Proof.
  exact (collect_tcl_tk_files_version_probe_failure
           (Faults.linux_failing InfoTclVersion) Hosts.ext
           [ExecStatement InfoLibrary; ExecStatement TkVersion]
           "/usr/lib/tcl8.6" "/usr/lib/tk8.6" InterpreterProbeError
           eq_refl ltac:(discriminate) eq_refl eq_refl eq_refl eq_refl).
Defined.

(** X6. On macOS, when the Tcl root is no system path and the script
    picked from the core manifest cannot be read, the exception of the
    reading ends [collect_tcl_tk_files] right there: both manifests were
    built, the module collection is not started, nothing is logged. *)
Theorem collect_tcl_tk_files_unreadable_script
    (w : World) (f : string) (t : list event)
    (tcl_root tk_root init_resource : string) (e : exn) :
  compat_is_darwin w = true ->
  _find_tcl_tk w f = (t, Ok (Some tcl_root, Some tk_root)) ->
  tcl_root <> "" ->
  host_isdir w tcl_root = true ->
  host_isdir w tk_root = true ->
  host_in_system_path w tcl_root = false ->
  init_script (host_Tree w tcl_root "tcl" tcl_excludes) = Ok init_resource ->
  host_readlines w init_resource = Raise e ->
  collect_tcl_tk_files w f =
    (t ++ [IsDir tcl_root; IsDir tk_root; TreeBuilt tcl_root "tcl" tcl_excludes;
           TreeBuilt tk_root "tk" tk_excludes;
           InSystemPath tcl_root; ReadLines init_resource],
     Raise e).
Proof.
  intros Hd Hfind Hne Hp Hq Hsys Hinit Hread.
  rewrite (collect_run_assemble w f t _ _ Hfind tcl_root tk_root
             eq_refl eq_refl Hne Hp Hq).
  rewrite assemble_result, assemble_trace. unfold health_step. rewrite Hd.
  rewrite (health_check_raises w tcl_root init_resource _ e Hsys Hinit Hread).
  reflexivity.
Qed.

Lemma collect_tcl_tk_files_unreadable_script_witness :
  collect_tcl_tk_files (Hosts.macos_bundled (Raise UnicodeDecodeError)) Hosts.ext =
    ([SelectImports Hosts.ext; ExecStatement InfoLibrary; ExecStatement TkVersion]
       ++ [IsDir (Hosts.pylib +:+ "/tcl8.6"); IsDir (Hosts.pylib +:+ "/tk8.6");
           TreeBuilt (Hosts.pylib +:+ "/tcl8.6") "tcl" tcl_excludes;
           TreeBuilt (Hosts.pylib +:+ "/tk8.6") "tk" tk_excludes;
           InSystemPath (Hosts.pylib +:+ "/tcl8.6");
           ReadLines (Hosts.pylib +:+ "/tcl8.6/init.tcl")],
     Raise UnicodeDecodeError).
Proof.
  exact (collect_tcl_tk_files_unreadable_script
           (Hosts.macos_bundled (Raise UnicodeDecodeError)) Hosts.ext
           [SelectImports Hosts.ext; ExecStatement InfoLibrary;
            ExecStatement TkVersion]
           (Hosts.pylib +:+ "/tcl8.6") (Hosts.pylib +:+ "/tk8.6")
           (Hosts.pylib +:+ "/tcl8.6/init.tcl") UnicodeDecodeError
           eq_refl eq_refl ltac:(discriminate) eq_refl eq_refl eq_refl
           eq_refl eq_refl).
Defined.

(** X7. The modules directory is optional: when it does not exist, the
    collection still succeeds and returns the core manifest followed by
    the widget manifest, and the one thing added to the run is the warning
    that names the directory looked for. *)
Theorem collect_tcl_tk_files_without_modules
    (w : World) (f : string) (t : list event)
    (tcl_root tk_root tcl_version : string) :
  _find_tcl_tk w f = (t, Ok (Some tcl_root, Some tk_root)) ->
  tcl_root <> "" ->
  host_isdir w tcl_root = true ->
  host_isdir w tk_root = true ->
  result (health_step w tcl_root) = Ok tt ->
  host_exec_statement w InfoTclVersion = Ok tcl_version ->
  let modules_path :=
    path_join (os_path w) tcl_root
      [".."; "tcl" +:+ Str.split_first "." tcl_version] in
  host_isdir w modules_path = false ->
  collect_tcl_tk_files w f =
    (t ++ [IsDir tcl_root; IsDir tk_root; TreeBuilt tcl_root "tcl" tcl_excludes;
           TreeBuilt tk_root "tk" tk_excludes]
       ++ trace (health_step w tcl_root)
       ++ [ExecStatement InfoTclVersion; IsDir modules_path;
           Log WARNING (MsgModulesDirMissing modules_path)],
     Ok (host_Tree w tcl_root "tcl" tcl_excludes
         ++ host_Tree w tk_root "tk" tk_excludes)).
Proof.
  intros Hfind Hne Hp Hq Hhealth Hver modules_path Hmods.
  rewrite (collect_run_assemble w f t _ _ Hfind tcl_root tk_root
             eq_refl eq_refl Hne Hp Hq).
  rewrite assemble_result, assemble_trace, Hhealth.
  rewrite (collect_tcl_modules_answers w tcl_root tcl_version Hver).
  fold modules_path. rewrite Hmods. unfold trace, result. cbn [fst snd].
  rewrite app_nil_r. reflexivity.
Qed.

Lemma collect_tcl_tk_files_without_modules_witness :
  result (collect_tcl_tk_files Faults.linux_no_modules Hosts.ext) =
    Ok (Hosts.tcl_entries "/usr/lib" ++ Hosts.tk_entries "/usr/lib")
  /\ In (Log WARNING (MsgModulesDirMissing "/usr/lib/tcl8.6/../tcl8"))
        (trace (collect_tcl_tk_files Faults.linux_no_modules Hosts.ext)).
Proof.
  rewrite (collect_tcl_tk_files_without_modules Faults.linux_no_modules
             Hosts.ext [ExecStatement InfoLibrary; ExecStatement TkVersion]
             "/usr/lib/tcl8.6" "/usr/lib/tk8.6" "8.6"
             eq_refl ltac:(discriminate) eq_refl eq_refl eq_refl eq_refl eq_refl).
  split; [reflexivity|]. cbn. tauto.
Defined.

(** ** Every run of [collect_tcl_tk_files], by cases *)

Lemma find_tcl_tk_dir_run (w : World) :
  (exists e, host_exec_statement w InfoLibrary = Raise e
             /\ _find_tcl_tk_dir w = ([ExecStatement InfoLibrary], Raise e))
  \/ (exists tcl_root e,
        host_exec_statement w InfoLibrary = Ok tcl_root
        /\ host_exec_statement w TkVersion = Raise e
        /\ _find_tcl_tk_dir w =
             ([ExecStatement InfoLibrary; ExecStatement TkVersion], Raise e))
  \/ (exists tcl_root tk_root,
        _find_tcl_tk_dir w =
          ([ExecStatement InfoLibrary; ExecStatement TkVersion],
           Ok (Some tcl_root, Some tk_root))).
Proof.
  unfold _find_tcl_tk_dir, exec_statement.
  destruct (host_exec_statement w InfoLibrary) as [tcl|e] eqn:Hlib.
  - rewrite bind_call_ok.
    destruct (host_exec_statement w TkVersion) as [ver|e] eqn:Hver.
    + right. right. rewrite bind_call_ok. eauto.
    + right. left. exists tcl, e. auto.
  - left. exists e. auto.
Qed.

Lemma bins_in_use_nonempty (w : World) (f : string) :
  bins_in_use w f <> Some [].
Proof.
  unfold bins_in_use.
  destruct (host_selectImports w f); [|discriminate].
  destruct (host_getImports w f) as [|lib libs]; [discriminate|].
  destruct (basename_mapping w (lib :: libs) !! "Tcl"); [|discriminate].
  destruct (basename_mapping w (lib :: libs) !! "Tk"); discriminate.
Qed.

(** The resolver by cases: its calls are scanner calls followed by
    probes, and it raises only from a missing base name or from a probe. *)
Lemma find_tcl_tk_run (w : World) (f : string) :
  exists scan probes,
    trace (_find_tcl_tk w f) = scan ++ probes
    /\ (scan = if compat_is_darwin w then scan_trace w f else [])
    /\ List.Forall (fun ev => is_probe ev = true) probes
    /\ forall e,
         result (_find_tcl_tk w f) = Raise e ->
         (compat_is_darwin w = true
          /\ host_selectImports w f = []
          /\ exists key,
               (key = "Tcl" \/ key = "Tk") /\ e = KeyError key
               /\ basename_mapping w (host_getImports w f) !! key = None)
         \/ exists p, host_exec_statement w p = Raise e.
Proof.
  assert (Hdir : exists probes,
             trace (_find_tcl_tk_dir w) = probes
             /\ List.Forall (fun ev => is_probe ev = true) probes
             /\ forall e, result (_find_tcl_tk_dir w) = Raise e ->
                          exists p, host_exec_statement w p = Raise e).
  { destruct (find_tcl_tk_dir_run w)
      as [(e & H & ->)|[(r & e & H1 & H2 & ->)|(r & q & ->)]];
      eexists; (split; [reflexivity|]);
      (split; [repeat constructor|]); intros e' He';
      try discriminate; injection He' as <-; eauto. }
  destruct Hdir as (probes & Htrace & Hprobes & Hraise).
  destruct (compat_is_darwin w) eqn:Hd.
  - destruct (bins_in_use w f) as [bins|] eqn:Hbins.
    + rewrite (find_tcl_tk_bins w f bins Hd Hbins). cbn [trace result fst snd].
      destruct bins as [|b rest];
        [exfalso; exact (bins_in_use_nonempty w f Hbins)|].
      rewrite check_path_to_tcl_cons.
      destruct (system_framework (snd b)).
      * exists (scan_trace w f), []. repeat split; [constructor|].
        intros e [=].
      * exists (scan_trace w f), probes. rewrite Htrace.
        repeat split; [assumption|]. intros e He. right. auto.
    + destruct (host_selectImports w f) as [|x xs] eqn:Hsel.
      * destruct (host_getImports w f) as [|lib libs] eqn:Hget.
        -- rewrite (find_tcl_tk_no_images w f Hd (conj Hsel Hget)).
           exists (scan_trace w f), []. unfold scan_trace. rewrite Hsel.
           repeat split; [constructor|]. intros e [=].
        -- destruct (find_tcl_tk_lookup_fails w f Hd Hsel)
             as (key & Hkey & Hnone & Hrun); [congruence | assumption |].
           rewrite Hrun. exists (scan_trace w f), [].
           unfold scan_trace. rewrite Hsel.
           repeat split; [constructor|]. intros e [= <-]. left.
           repeat split. exists key. rewrite <- Hget. auto.
      * unfold bins_in_use in Hbins. rewrite Hsel in Hbins. discriminate.
  - rewrite (find_tcl_tk_non_darwin w f Hd). exists [], probes.
    repeat split; [assumption..|]. intros e He. right. auto.
Qed.

(** Every run of [collect_tcl_tk_files]: the resolver raises; or one of
    the four exits before the enumeration is taken; or both roots are
    enumerated and the assembly runs. *)
Lemma collect_run_cases (w : World) (f : string) :
  (exists e, result (_find_tcl_tk w f) = Raise e
             /\ collect_tcl_tk_files w f = (trace (_find_tcl_tk w f), Raise e))
  \/ (compat_is_darwin w = true
      /\ collect_tcl_tk_files w f =
           (trace (_find_tcl_tk w f) ++ [Log INFO MsgNotCollecting], Ok []))
  \/ collect_tcl_tk_files w f =
       (trace (_find_tcl_tk w f) ++ [Log ERROR MsgImproperlyInstalled], Ok [])
  \/ (exists p,
        host_isdir w p = false
        /\ collect_tcl_tk_files w f =
             (trace (_find_tcl_tk w f)
                ++ [IsDir p; Log ERROR (MsgTclDirNotFound p)], Ok []))
  \/ (exists p q,
        host_isdir w p = true /\ host_isdir w q = false
        /\ collect_tcl_tk_files w f =
             (trace (_find_tcl_tk w f)
                ++ [IsDir p; IsDir q; Log ERROR (MsgTkDirNotFound q)], Ok []))
  \/ (exists p q,
        result (_find_tcl_tk w f) = Ok (Some p, Some q)
        /\ host_isdir w p = true /\ host_isdir w q = true
        /\ collect_tcl_tk_files w f =
             (trace (_find_tcl_tk w f)
                ++ [IsDir p; IsDir q; TreeBuilt p "tcl" tcl_excludes;
                    TreeBuilt q "tk" tk_excludes]
                ++ trace (assemble w p q),
              result (assemble w p q))).
Proof.
  assert (Hshape := find_tcl_tk_shape w f).
  destruct (_find_tcl_tk w f) as [t [[a b]|e]] eqn:Hfind; cbn [trace result fst snd].
  2: { left. exists e. split; [reflexivity|].
       apply collect_resolver_raises, Hfind. }
  right.
  destruct (falsy a) eqn:Ha.
  - destruct (compat_is_darwin w && falsy b) eqn:Hb.
    + left. apply andb_true_iff in Hb. destruct Hb as [Hd Hb].
      split; [exact Hd|]. exact (collect_run_skip w f t a b Hfind Hd Ha Hb).
    + right. left. exact (collect_run_improper w f t a b Hfind Ha Hb).
  - destruct (Hshape a b eq_refl) as [[-> _]|(p & q & -> & ->)]; [discriminate|].
    assert (Hne : p <> "") by (intros ->; discriminate).
    right. right.
    destruct (host_isdir w p) eqn:Hp.
    + right. destruct (host_isdir w q) eqn:Hq.
      * right. exists p, q. split; [reflexivity|].
        split; [exact Hp|]. split; [exact Hq|].
        exact (collect_run_assemble w f t _ _ Hfind p q eq_refl eq_refl Hne Hp Hq).
      * left. exists p, q. split; [exact Hp|]. split; [exact Hq|].
        exact (collect_run_no_tk w f t _ _ Hfind p q eq_refl eq_refl Hne Hp Hq).
    + left. exists p. split; [exact Hp|].
      exact (collect_run_no_tcl w f t _ _ Hfind p eq_refl Hne Hp).
Qed.

Lemma collect_tcl_modules_run (w : World) (tcl_root : string) :
  (exists e, host_exec_statement w InfoTclVersion = Raise e
             /\ _collect_tcl_modules w tcl_root =
                  ([ExecStatement InfoTclVersion], Raise e))
  \/ (exists modules_path,
        host_isdir w modules_path = false
        /\ _collect_tcl_modules w tcl_root =
             ([ExecStatement InfoTclVersion; IsDir modules_path;
               Log WARNING (MsgModulesDirMissing modules_path)], Ok []))
  \/ (exists modules_path major,
        host_isdir w modules_path = true
        /\ _collect_tcl_modules w tcl_root =
             ([ExecStatement InfoTclVersion; IsDir modules_path;
               TreeBuilt modules_path ("tcl" +:+ major) []],
              Ok (host_Tree w modules_path ("tcl" +:+ major) []))).
Proof.
  destruct (host_exec_statement w InfoTclVersion) as [v|e] eqn:Hver.
  - right. rewrite (collect_tcl_modules_answers w tcl_root v Hver).
    destruct (host_isdir w _) eqn:Hdir; [right | left]; eauto.
  - left. exists e. split; [reflexivity|].
    apply collect_tcl_modules_raises, Hver.
Qed.

(** X8. [collect_tcl_tk_files] raises only what a collaborator raised or
    a missing base name: an exception that leaves it is the [KeyError] of
    the macOS lookup of [Tcl] or [Tk] (curated subset empty, no image of
    the full set filed under that name), or the exception of one of the
    three interpreter probes, or, on macOS, the exception of reading a
    file. In particular its own indexing ([bins[0]], the [[0]] of the
    health check) and its handling of [None] never raise. *)
Theorem collect_tcl_tk_files_exceptions (w : World) (f : string) (e : exn) :
  result (collect_tcl_tk_files w f) = Raise e ->
  (compat_is_darwin w = true
   /\ host_selectImports w f = []
   /\ exists key,
        (key = "Tcl" \/ key = "Tk") /\ e = KeyError key
        /\ basename_mapping w (host_getImports w f) !! key = None)
  \/ (exists p, host_exec_statement w p = Raise e)
  \/ (compat_is_darwin w = true
      /\ exists init_resource, host_readlines w init_resource = Raise e).
Proof.
  intros Hraise.
  destruct (collect_run_cases w f)
    as [(e' & Hres & Hrun)|[[_ Hrun]|[Hrun|[(p & _ & Hrun)|
        [(p & q & _ & _ & Hrun)|(p & q & _ & _ & _ & Hrun)]]]]];
    rewrite Hrun in Hraise; cbn [result snd] in Hraise; try discriminate.
  - injection Hraise as <-.
    destruct (find_tcl_tk_run w f) as (scan & probes & _ & _ & _ & Hinv).
    destruct (Hinv e' Hres) as [H|H]; auto.
  - rewrite assemble_result in Hraise. unfold health_step in Hraise.
    destruct (compat_is_darwin w) eqn:Hd.
    + destruct (health_check_cases w p (host_Tree w p "tcl" tcl_excludes))
        as [H|[(s & l & _ & _ & H & _)|(s & e' & _ & _ & Hread & H)]];
        rewrite H in Hraise; cbn [result snd] in Hraise.
      * destruct (collect_tcl_modules_run w p)
          as [(e' & Hver & H')|[(m & _ & H')|(m & j & _ & H')]];
          rewrite H' in Hraise; cbn [result snd] in Hraise; try discriminate.
        injection Hraise as <-. right. left. eauto.
      * destruct (collect_tcl_modules_run w p)
          as [(e' & Hver & H')|[(m & _ & H')|(m & j & _ & H')]];
          rewrite H' in Hraise; cbn [result snd] in Hraise; try discriminate.
        injection Hraise as <-. right. left. eauto.
      * injection Hraise as <-. right. right. eauto.
    + cbn [result snd mret M_ret] in Hraise.
      destruct (collect_tcl_modules_run w p)
        as [(e' & Hver & H')|[(m & _ & H')|(m & j & _ & H')]];
        rewrite H' in Hraise; cbn [result snd] in Hraise; try discriminate.
      injection Hraise as <-. right. left. eauto.
Qed.

Lemma collect_tcl_tk_files_exceptions_witness :
  (compat_is_darwin Hosts.macos_dylibs = true
   /\ host_selectImports Hosts.macos_dylibs Hosts.ext = []
   /\ exists key,
        (key = "Tcl" \/ key = "Tk") /\ KeyError "Tcl" = KeyError key
        /\ basename_mapping Hosts.macos_dylibs
             (host_getImports Hosts.macos_dylibs Hosts.ext) !! key = None)
  \/ (exists p, host_exec_statement Hosts.macos_dylibs p = Raise (KeyError "Tcl"))
  \/ (compat_is_darwin Hosts.macos_dylibs = true
      /\ exists init_resource,
           host_readlines Hosts.macos_dylibs init_resource
             = Raise (KeyError "Tcl")).
Proof.
  exact (collect_tcl_tk_files_exceptions Hosts.macos_dylibs Hosts.ext
           (KeyError "Tcl") eq_refl).
Defined.

(** ** The events of a run *)

Lemma prefix_nil (s : string) : String.prefix "" s = true.
Proof. destruct s; reflexivity. Qed.

Lemma find_tcl_tk_lawful (w : World) (f : string) :
  List.Forall (lawful_event w) (trace (_find_tcl_tk w f)).
Proof.
  destruct (find_tcl_tk_run w f) as (scan & probes & -> & -> & Hprobes & _).
  apply List.Forall_app. split.
  - destruct (compat_is_darwin w) eqn:Hd; [|constructor].
    unfold scan_trace. destruct (host_selectImports w f);
      repeat (apply List.Forall_cons; [exact Hd|]); constructor.
  - apply (List.Forall_impl _ (P := fun ev => is_probe ev = true));
      [|exact Hprobes].
    intros [] H; try discriminate. exact I.
Qed.

Lemma health_step_lawful (w : World) (tcl_root : string) :
  List.Forall (lawful_event w) (trace (health_step w tcl_root)).
Proof.
  unfold health_step. destruct (compat_is_darwin w) eqn:Hd; [|constructor].
  destruct (health_check_cases w tcl_root (host_Tree w tcl_root "tcl" tcl_excludes))
    as [->|[(s & l & _ & _ & _ & logs & -> & Hlogs)|(s & e & _ & _ & _ & ->)]].
  - repeat (apply List.Forall_cons; [exact Hd|]). constructor.
  - repeat (apply List.Forall_cons; [exact Hd|]).
    destruct Hlogs as [->| ->]; repeat (apply List.Forall_cons; [exact Hd|]);
      constructor.
  - repeat (apply List.Forall_cons; [exact Hd|]). constructor.
Qed.

Lemma collect_tcl_modules_lawful (w : World) (tcl_root : string) :
  List.Forall (lawful_event w) (trace (_collect_tcl_modules w tcl_root)).
Proof.
  destruct (collect_tcl_modules_run w tcl_root)
    as [(e & _ & ->)|[(m & _ & ->)|(m & major & Hdir & ->)]];
    repeat (apply List.Forall_cons; [exact I|]); try constructor.
  - split; [exact Hdir|]. right. right. split; [|reflexivity].
    apply prefix_nil.
  - constructor.
Qed.

(** Every event of every run of [collect_tcl_tk_files] is lawful. *)
Lemma collect_tcl_tk_files_lawful (w : World) (f : string) :
  List.Forall (lawful_event w) (trace (collect_tcl_tk_files w f)).
Proof.
  assert (Hfind := find_tcl_tk_lawful w f).
  destruct (collect_run_cases w f)
    as [(e' & _ & ->)|[[Hd ->]|[->|[(p & _ & ->)|
        [(p & q & _ & _ & ->)|(p & q & _ & Hp & Hq & ->)]]]]];
    cbn [trace fst]; [exact Hfind|..]; apply List.Forall_app;
    (split; [exact Hfind|]).
  - apply List.Forall_cons; [exact Hd | constructor].
  - repeat (apply List.Forall_cons; [exact I|]). constructor.
  - repeat (apply List.Forall_cons; [exact I|]). constructor.
  - repeat (apply List.Forall_cons; [exact I|]). constructor.
  - do 2 (apply List.Forall_cons; [exact I|]).
    apply List.Forall_cons; [split; [exact Hp | left; auto]|].
    apply List.Forall_cons; [split; [exact Hq | right; left; auto]|].
    rewrite assemble_trace. apply List.Forall_app.
    split; [apply health_step_lawful|].
    destruct (result (health_step w p));
      [apply collect_tcl_modules_lawful | constructor].
Qed.

(** X9. Off macOS no run of [collect_tcl_tk_files] calls the binary
    dependency scanner, tests a system path, reads a script, or logs one
    of the two macOS messages (the ActiveTcl warning, the note that
    nothing is collected): the health check and the framework analysis
    are macOS only. *)
Theorem collect_tcl_tk_files_portable_run (w : World) (f : string) :
  compat_is_darwin w = false ->
  List.Forall (fun ev => is_macos_event ev = false)
    (trace (collect_tcl_tk_files w f)).
Proof.
  intros Hd.
  apply (List.Forall_impl _ (P := lawful_event w));
    [|apply collect_tcl_tk_files_lawful].
  intros [lv m| | | | | | |]; cbn; try reflexivity; try congruence.
  destruct lv, m; cbn; try reflexivity; try congruence; intros [].
Qed.

Lemma collect_tcl_tk_files_portable_run_witness :
  List.Forall (fun ev => is_macos_event ev = false)
    (trace (collect_tcl_tk_files Hosts.linux Hosts.ext)).
Proof.
  exact (collect_tcl_tk_files_portable_run Hosts.linux Hosts.ext eq_refl).
Defined.

(** X10. [Tree] is only ever built on a path that [os.path.isdir] has
    just confirmed: in every run of [collect_tcl_tk_files], on every host,
    each enumeration is of an existing directory and carries the prefix
    [tcl] with the Tcl exclusions, the prefix [tk] with the Tk
    exclusions, or a prefix [tcl<major>] with no exclusion. *)
Theorem collect_tcl_tk_files_enumerates_directories (w : World) (f : string) :
  List.Forall (sound_enumeration w) (trace (collect_tcl_tk_files w f)).
Proof.
  apply (List.Forall_impl _ (P := lawful_event w));
    [|apply collect_tcl_tk_files_lawful].
  intros [lv m| | | | | | |]; cbn; auto.
Qed.

(** Each message has its level, whatever the run: the note that nothing
    is collected is INFO, the three installation errors are ERROR, the
    missing modules directory and the ActiveTcl notice are WARNING. *)
Corollary collect_tcl_tk_files_log_levels (w : World) (f : string) :
  List.Forall
    (fun ev =>
       match ev with
       | Log lv MsgNotCollecting => lv = INFO
       | Log lv MsgImproperlyInstalled
       | Log lv (MsgTclDirNotFound _)
       | Log lv (MsgTkDirNotFound _) => lv = ERROR
       | Log lv (MsgModulesDirMissing _)
       | Log lv (MsgActiveTcl _) => lv = WARNING
       | _ => True
       end)
    (trace (collect_tcl_tk_files w f)).
Proof.
  apply (List.Forall_impl _ (P := lawful_event w));
    [|apply collect_tcl_tk_files_lawful].
  intros [lv m| | | | | | |]; cbn; auto.
  destruct lv, m; cbn; auto; intros [].
Qed.

(** ** The scanner and the mapping of base names *)

(** X11. On macOS the full set of linked images is asked for exactly when
    the curated subset is empty: [getImports] appears among the calls of
    [_find_tcl_tk] if and only if [selectImports] returned nothing, and
    then for the same extension module. *)
Theorem find_tcl_tk_full_set_iff_curated_empty
    (w : World) (f f' : string) :
  compat_is_darwin w = true ->
  (In (GetImports f') (trace (_find_tcl_tk w f))
   <-> host_selectImports w f = [] /\ f' = f).
Proof.
  intros Hd.
  destruct (find_tcl_tk_run w f) as (scan & probes & -> & -> & Hprobes & _).
  rewrite Hd, in_app_iff. unfold scan_trace. split.
  - intros [Hin|Hin].
    + destruct (host_selectImports w f); cbn in Hin.
      * destruct Hin as [H|[H|[]]]; [discriminate|]. injection H as ->. auto.
      * destruct Hin as [H|[]]. discriminate.
    + rewrite List.Forall_forall in Hprobes. apply Hprobes in Hin. discriminate.
  - intros [-> ->]. left. right. left. reflexivity.
Qed.

Lemma find_tcl_tk_full_set_iff_curated_empty_witness :
  In (GetImports Hosts.ext) (trace (_find_tcl_tk Hosts.macos_system Hosts.ext))
  /\ ~ In (GetImports Hosts.ext)
         (trace (_find_tcl_tk (Hosts.macos_bundled (Ok [])) Hosts.ext)).
Proof.
  split.
  - apply (find_tcl_tk_full_set_iff_curated_empty Hosts.macos_system
             Hosts.ext Hosts.ext eq_refl). split; reflexivity.
  - intros H.
    apply (find_tcl_tk_full_set_iff_curated_empty (Hosts.macos_bundled (Ok []))
             Hosts.ext Hosts.ext eq_refl) in H.
    destruct H as [H _]. discriminate.
Defined.

(** The mapping files each base name under the last library that has it. *)
Lemma basename_mapping_lookup (w : World) (bins : list string) (key : string) :
  basename_mapping w bins !! key =
    last (filter (fun lib => path_basename (os_path w) lib = key) bins).
Proof.
  unfold basename_mapping.
  assert (H : forall m : gmap string string,
            foldl (fun mapping lib =>
                     <[path_basename (os_path w) lib := lib]> mapping) m bins
              !! key =
            match last (filter (fun lib => path_basename (os_path w) lib = key)
                          bins) with
            | Some lib => Some lib
            | None => m !! key
            end).
  { induction bins as [|lib bins IH]; intros m; [reflexivity|].
    cbn [foldl]. rewrite IH.
    destruct (decide (path_basename (os_path w) lib = key)) as [Heq|Hne].
    - rewrite filter_cons_True by exact Heq. rewrite last_cons.
      destruct (last (filter _ bins)); [reflexivity|].
      rewrite Heq. apply lookup_insert_eq.
    - rewrite filter_cons_False by exact Hne.
      destruct (last (filter _ bins)); [reflexivity|].
      apply lookup_insert_ne, Hne. }
  rewrite H, lookup_empty. destruct (last _); reflexivity.
Qed.

(** X12. When several linked images of the full set share the base name
    [Tcl], the one that comes last in the iteration decides: with an empty
    curated subset, [_find_tcl_tk] tests the path of the last image named
    [Tcl] for the system framework (provided some image is named [Tk]),
    skipping if it is in it and probing for the standard layout if not,
    whatever the earlier images named [Tcl] are. *)
Theorem find_tcl_tk_last_image_decides
    (w : World) (f tcl tk : string) :
  compat_is_darwin w = true ->
  host_selectImports w f = [] ->
  last (filter (fun lib => path_basename (os_path w) lib = "Tcl")
          (host_getImports w f)) = Some tcl ->
  last (filter (fun lib => path_basename (os_path w) lib = "Tk")
          (host_getImports w f)) = Some tk ->
  _find_tcl_tk w f =
    if system_framework tcl then
      ([SelectImports f; GetImports f], Ok (None, None))
    else
      ([SelectImports f; GetImports f] ++ trace (_find_tcl_tk_dir w),
       result (_find_tcl_tk_dir w)).
Proof.
  intros Hd Hsel Htcl Htk.
  rewrite <- basename_mapping_lookup in Htcl, Htk.
  assert (Hbins : bins_in_use w f = Some [("Tcl", tcl); ("Tk", tk)]).
  { unfold bins_in_use. rewrite Hsel.
    destruct (host_getImports w f) as [|lib libs]; [discriminate|].
    rewrite Htcl, Htk. reflexivity. }
  rewrite (find_tcl_tk_bins w f _ Hd Hbins), check_path_to_tcl_cons.
  unfold scan_trace. rewrite Hsel. cbn [snd].
  destruct (system_framework tcl); reflexivity.
Qed.

Lemma find_tcl_tk_last_image_decides_witness :
  _find_tcl_tk Faults.macos_two_tcl Hosts.ext =
    ([SelectImports Hosts.ext; GetImports Hosts.ext; ExecStatement InfoLibrary;
      ExecStatement TkVersion],
     Ok (Some (Hosts.pylib +:+ "/tcl8.6"), Some (Hosts.pylib +:+ "/tk8.6"))).
Proof.
  rewrite (find_tcl_tk_last_image_decides Faults.macos_two_tcl Hosts.ext
             "/opt/tcl/lib/Tcl"
             "/System/Library/Frameworks/Tk.framework/Versions/8.5/Tk"
             eq_refl eq_refl eq_refl eq_refl).
  reflexivity.
Defined.

Lemma prefix_app (sub post : string) : String.prefix sub (sub +:+ post) = true.
Proof.
  induction sub as [|c sub IH]; [apply prefix_nil|].
  change (String c sub +:+ post) with (String c (sub +:+ post)).
  cbn [String.prefix]. destruct (ascii_dec c c); [exact IH | congruence].
Qed.

Lemma contains_app (sub pre post : string) :
  Str.contains sub (pre +:+ sub +:+ post) = true.
Proof.
  induction pre as [|c pre IH].
  - change ("" +:+ sub +:+ post) with (sub +:+ post).
    destruct (sub +:+ post) eqn:E; cbn [Str.contains];
      rewrite <- E, prefix_app; reflexivity.
  - change (String c pre +:+ sub +:+ post)
      with (String c (pre +:+ sub +:+ post)).
    cbn [Str.contains]. rewrite IH. apply orb_true_r.
Qed.

(** X13. The test for the system framework is a test for a piece of
    text: on macOS, whenever the path of the first curated image contains
    [Library/Frameworks/Tcl.framework] anywhere, be it under [/System],
    under [/Library] or under the home directory of a user, the resolver
    returns [(None, None)] at once, without looking at any other image
    and without starting the interpreter. *)
Theorem find_tcl_tk_framework_anywhere
    (w : World) (f name before after : string)
    (rest : list (string * string)) :
  compat_is_darwin w = true ->
  host_selectImports w f =
    (name, before +:+ "Library/Frameworks/Tcl.framework" +:+ after) :: rest ->
  _find_tcl_tk w f = ([SelectImports f], Ok (None, None)).
Proof.
  intros Hd Hsel.
  assert (Hbins : bins_in_use w f = Some (host_selectImports w f)).
  { unfold bins_in_use. rewrite Hsel. reflexivity. }
  rewrite (find_tcl_tk_bins w f _ Hd Hbins), Hsel, check_path_to_tcl_cons.
  unfold scan_trace, system_framework. rewrite Hsel. cbn [snd].
  rewrite contains_app. reflexivity.
Qed.

Lemma find_tcl_tk_framework_anywhere_witness :
  _find_tcl_tk Faults.macos_user_framework Hosts.ext =
    ([SelectImports Hosts.ext], Ok (None, None)).
Proof.
  exact (find_tcl_tk_framework_anywhere Faults.macos_user_framework Hosts.ext
           "Tcl" "/Users/me/" "/Versions/8.6/Tcl" _ eq_refl eq_refl).
Defined.

(** ** The health check and the script it reads *)

Lemma init_script_entry (tcltree : list entry) (init_resource : string) :
  init_script tcltree = Ok init_resource ->
  exists pre r post,
    tcltree = pre ++ r :: post
    /\ List.Forall (fun x => Str.endswith "init.tcl" (e_path x) = false) pre
    /\ e_path r = init_resource
    /\ Str.endswith "init.tcl" init_resource = true.
Proof.
  unfold init_script. induction tcltree as [|x rest IH]; [discriminate|].
  cbn [List.filter].
  destruct (Str.endswith "init.tcl" (e_path x)) eqn:Hx.
  - intros [= <-]. exists [], x, rest. repeat split; [constructor | exact Hx].
  - intros H. destruct (IH H) as (pre & r & post & -> & Hpre & Hr & Hend).
    exists (x :: pre), r, post. repeat split; auto.
Qed.

Lemma init_script_first (pre post : list entry) (r : entry) :
  List.Forall (fun x => Str.endswith "init.tcl" (e_path x) = false) pre ->
  Str.endswith "init.tcl" (e_path r) = true ->
  init_script (pre ++ r :: post) = Ok (e_path r).
Proof.
  intros Hpre Hr. unfold init_script.
  induction Hpre as [|x pre Hx _ IH]; cbn [app List.filter].
  - rewrite Hr. reflexivity.
  - rewrite Hx. exact IH.
Qed.

(** X14. The health check opens no file but a script of the manifest:
    every file it reads is the path of an entry of the manifest it was
    given, that path ends with [init.tcl], no earlier entry has such a
    path, and the root is no system path. *)
Theorem health_check_reads_manifest_script
    (w : World) (tcl_root file : string) (tcltree : list entry) :
  In (ReadLines file)
     (trace (_warn_if_activetcl_or_teapot_installed w tcl_root tcltree)) ->
  host_in_system_path w tcl_root = false
  /\ exists pre r post,
       tcltree = pre ++ r :: post
       /\ List.Forall (fun x => Str.endswith "init.tcl" (e_path x) = false) pre
       /\ e_path r = file
       /\ Str.endswith "init.tcl" file = true.
Proof.
  intros Hin.
  destruct (host_in_system_path w tcl_root) eqn:Hsys.
  { rewrite (health_check_system_path w tcl_root tcltree Hsys) in Hin.
    destruct Hin as [H|[]]. discriminate. }
  split; [reflexivity|].
  destruct (health_check_cases w tcl_root tcltree)
    as [H|[(s & l & Hinit & _ & _ & logs & H & Hlogs)|(s & e & _ & Hinit & _ & H)]];
    rewrite H in Hin.
  - destruct Hin as [Hin|[]]. discriminate.
  - destruct Hin as [Hin|[Hin|Hin]]; [discriminate | |].
    + injection Hin as <-. apply init_script_entry, Hinit.
    + destruct Hlogs as [->| ->]; [destruct Hin|].
      destruct Hin as [Hin|[]]. discriminate.
  - destruct Hin as [Hin|[Hin|[]]]; [discriminate|].
    injection Hin as <-. apply init_script_entry, Hinit.
Qed.

Lemma health_check_reads_manifest_script_witness :
  host_in_system_path (Hosts.macos_bundled (Ok Hosts.init_stock))
    (Hosts.pylib +:+ "/tcl8.6") = false
  /\ exists pre r post,
       Hosts.tcl_entries Hosts.pylib = pre ++ r :: post
       /\ List.Forall (fun x => Str.endswith "init.tcl" (e_path x) = false) pre
       /\ e_path r = Hosts.pylib +:+ "/tcl8.6/init.tcl"
       /\ Str.endswith "init.tcl" (Hosts.pylib +:+ "/tcl8.6/init.tcl") = true.
Proof.
  apply (health_check_reads_manifest_script
           (Hosts.macos_bundled (Ok Hosts.init_stock))
           (Hosts.pylib +:+ "/tcl8.6") (Hosts.pylib +:+ "/tcl8.6/init.tcl")
           (Hosts.tcl_entries Hosts.pylib)).
  right. left. reflexivity.
Defined.

(** X15. Of several entries whose path ends with [init.tcl] the health
    check reads the first in the order of the manifest, and only that
    one: any path with these last eight characters qualifies, and what
    follows it in the manifest is never opened. *)
Theorem health_check_reads_first_match
    (w : World) (tcl_root : string) (pre post : list entry) (r : entry) :
  host_in_system_path w tcl_root = false ->
  List.Forall (fun x => Str.endswith "init.tcl" (e_path x) = false) pre ->
  Str.endswith "init.tcl" (e_path r) = true ->
  exists logs,
    trace (_warn_if_activetcl_or_teapot_installed w tcl_root (pre ++ r :: post))
      = InSystemPath tcl_root :: ReadLines (e_path r) :: logs
    /\ List.Forall (fun ev => is_log ev = true) logs.
Proof.
  intros Hsys Hpre Hr.
  assert (Hinit := init_script_first pre post r Hpre Hr).
  destruct (host_readlines w (e_path r)) as [lines|e] eqn:Hread.
  - rewrite (health_check_scans w tcl_root (e_path r) _ lines Hsys Hinit Hread).
    eexists. split; [reflexivity|].
    destruct (existsb (mentions "activetcl") lines
              && existsb (mentions "teapot") lines); repeat constructor.
  - rewrite (health_check_raises w tcl_root (e_path r) _ e Hsys Hinit Hread).
    exists []. split; [reflexivity | constructor].
Qed.

Lemma health_check_reads_first_match_witness :
  exists logs,
    trace (_warn_if_activetcl_or_teapot_installed
             (Hosts.macos_bundled (Ok Hosts.init_stock))
             (Hosts.pylib +:+ "/tcl8.6")
             ([Entry "tcl/auto.tcl" (Hosts.pylib +:+ "/tcl8.6/auto.tcl") "DATA"]
              ++ Entry "tcl/opt/xinit.tcl"
                   (Hosts.pylib +:+ "/tcl8.6/opt/xinit.tcl") "DATA"
              :: Hosts.tcl_entries Hosts.pylib))
      = InSystemPath (Hosts.pylib +:+ "/tcl8.6")
        :: ReadLines (Hosts.pylib +:+ "/tcl8.6/opt/xinit.tcl") :: logs
    /\ List.Forall (fun ev => is_log ev = true) logs.
Proof.
  apply (health_check_reads_first_match
           (Hosts.macos_bundled (Ok Hosts.init_stock))
           (Hosts.pylib +:+ "/tcl8.6")
           [Entry "tcl/auto.tcl" (Hosts.pylib +:+ "/tcl8.6/auto.tcl") "DATA"]
           (Hosts.tcl_entries Hosts.pylib)
           (Entry "tcl/opt/xinit.tcl"
              (Hosts.pylib +:+ "/tcl8.6/opt/xinit.tcl") "DATA")).
  - reflexivity.
  - repeat constructor.
  - reflexivity.
Defined.

Lemma mentions_lower (marker line : string) :
  mentions marker (Str.lower line) = mentions marker line.
Proof. apply mentions_case_insensitive, lower_idempotent. Qed.

Lemma existsb_mentions_lower (marker : string) (lines : list string) :
  existsb (mentions marker) (List.map Str.lower lines)
  = existsb (mentions marker) lines.
Proof.
  induction lines as [|l lines IH]; [reflexivity|].
  cbn [List.map existsb]. rewrite mentions_lower, IH. reflexivity.
Qed.

(** X16. The health check does not tell capitals from small letters: two
    contents of the script whose lines agree up to the case of their
    letters give the same run, warning included. *)
Theorem health_check_ignores_case
    (w : World) (tcl_root init_resource : string) (tcltree : list entry)
    (lines lines' : list string) :
  init_script tcltree = Ok init_resource ->
  host_readlines w init_resource = Ok lines ->
  List.map Str.lower lines' = List.map Str.lower lines ->
  _warn_if_activetcl_or_teapot_installed
    (Faults.with_readlines w (fun _ => Ok lines')) tcl_root tcltree
  = _warn_if_activetcl_or_teapot_installed w tcl_root tcltree.
Proof.
  intros Hinit Hread Hcase.
  destruct (host_in_system_path w tcl_root) eqn:Hsys.
  - rewrite (health_check_system_path w tcl_root tcltree Hsys).
    apply health_check_system_path. exact Hsys.
  - rewrite (health_check_scans w tcl_root init_resource tcltree lines
               Hsys Hinit Hread).
    rewrite (health_check_scans (Faults.with_readlines w (fun _ => Ok lines'))
               tcl_root init_resource tcltree lines' Hsys Hinit eq_refl).
    rewrite <- (existsb_mentions_lower "activetcl" lines'),
            <- (existsb_mentions_lower "teapot" lines'), Hcase,
            !existsb_mentions_lower.
    reflexivity.
Qed.

Lemma health_check_ignores_case_witness :
  _warn_if_activetcl_or_teapot_installed
    (Faults.with_readlines (Hosts.macos_bundled (Ok Hosts.init_activetcl))
       (fun _ => Ok Faults.init_shouting))
    (Hosts.pylib +:+ "/tcl8.6") (Hosts.tcl_entries Hosts.pylib)
  = _warn_if_activetcl_or_teapot_installed
      (Hosts.macos_bundled (Ok Hosts.init_activetcl))
      (Hosts.pylib +:+ "/tcl8.6") (Hosts.tcl_entries Hosts.pylib).
Proof.
  exact (health_check_ignores_case
           (Hosts.macos_bundled (Ok Hosts.init_activetcl))
           (Hosts.pylib +:+ "/tcl8.6") (Hosts.pylib +:+ "/tcl8.6/init.tcl")
           (Hosts.tcl_entries Hosts.pylib)
           Hosts.init_activetcl Faults.init_shouting eq_refl eq_refl eq_refl).
Defined.

(** Two hosts that resolve alike and have the same directories leave
    [collect_tcl_tk_files] alike before the assembly, or both get to it. *)
Lemma collect_result_split (w w' : World) (f : string) :
  _find_tcl_tk w' f = _find_tcl_tk w f ->
  compat_is_darwin w' = compat_is_darwin w ->
  (forall p, host_isdir w' p = host_isdir w p) ->
  (exists r : outcome (list entry),
      (r = Ok [] \/ exists e, r = Raise e)
      /\ result (collect_tcl_tk_files w f) = r
      /\ result (collect_tcl_tk_files w' f) = r)
  \/ (exists p q,
        result (collect_tcl_tk_files w f) = result (assemble w p q)
        /\ result (collect_tcl_tk_files w' f) = result (assemble w' p q)).
Proof.
  intros Hsame Hd Hdir.
  assert (Hshape := find_tcl_tk_shape w f).
  destruct (_find_tcl_tk w f) as [t [[a b]|e]] eqn:Hfind.
  2: { left. exists (Raise e). split; [eauto|].
       rewrite (collect_resolver_raises w f t e Hfind),
               (collect_resolver_raises w' f t e Hsame). auto. }
  destruct (falsy a) eqn:Ha.
  - left. exists (Ok []). split; [auto|].
    destruct (compat_is_darwin w && falsy b) eqn:Hb.
    + apply andb_true_iff in Hb. destruct Hb as [Hdw Hb].
      rewrite (collect_run_skip w f t a b Hfind Hdw Ha Hb).
      rewrite (collect_run_skip w' f t a b Hsame); auto. congruence.
    + rewrite (collect_run_improper w f t a b Hfind Ha Hb).
      rewrite (collect_run_improper w' f t a b Hsame Ha); auto. congruence.
  - destruct (Hshape a b eq_refl) as [[-> _]|(p & q & -> & ->)]; [discriminate|].
    assert (Hne : p <> "") by (intros ->; discriminate).
    destruct (host_isdir w p) eqn:Hp.
    + destruct (host_isdir w q) eqn:Hq.
      * right. exists p, q.
        rewrite (collect_run_assemble w f t _ _ Hfind p q eq_refl eq_refl
                   Hne Hp Hq).
        rewrite (collect_run_assemble w' f t _ _ Hsame p q eq_refl eq_refl Hne);
          [auto | congruence | congruence].
      * left. exists (Ok []). split; [auto|].
        rewrite (collect_run_no_tk w f t _ _ Hfind p q eq_refl eq_refl Hne Hp Hq).
        rewrite (collect_run_no_tk w' f t _ _ Hsame p q eq_refl eq_refl Hne);
          [auto | congruence | congruence].
    + left. exists (Ok []). split; [auto|].
      rewrite (collect_run_no_tcl w f t _ _ Hfind p eq_refl Hne Hp).
      rewrite (collect_run_no_tcl w' f t _ _ Hsame p eq_refl Hne);
        [auto | congruence].
Qed.

(** X17. The health check is advisory: the manifest that
    [collect_tcl_tk_files] returns does not depend on what the script
    holds. If the collection succeeds on a host, it succeeds with the same
    manifest on the host that differs only in the contents of its files,
    as long as these can be read. *)
Theorem collect_tcl_tk_files_ignores_script
    (w : World) (f : string) (r : string -> outcome (list string))
    (manifest : list entry) :
  result (collect_tcl_tk_files w f) = Ok manifest ->
  (forall file, exists lines, r file = Ok lines) ->
  result (collect_tcl_tk_files (Faults.with_readlines w r) f) = Ok manifest.
Proof.
  intros Hok Hreadable.
  destruct (collect_result_split w (Faults.with_readlines w r) f
              eq_refl eq_refl (fun _ => eq_refl))
    as [(x & _ & Hw & Hw')|(p & q & Hw & Hw')].
  - rewrite Hw', <- Hw. exact Hok.
  - rewrite Hw'. rewrite Hw in Hok. rewrite assemble_result in Hok |- *.
    assert (Hhealth : result (health_step (Faults.with_readlines w r) p) = Ok tt).
    { unfold health_step. cbn [compat_is_darwin Faults.with_readlines].
      destruct (compat_is_darwin w); [|reflexivity].
      destruct (health_check_cases (Faults.with_readlines w r) p
                  (host_Tree (Faults.with_readlines w r) p "tcl" tcl_excludes))
        as [H|[(s & l & _ & _ & H & _)|(s & e & _ & _ & Hread & _)]].
      - rewrite H. reflexivity.
      - exact H.
      - cbn [host_readlines Faults.with_readlines] in Hread.
        destruct (Hreadable s) as [lines Hs]. congruence. }
    rewrite Hhealth.
    destruct (result (health_step w p)); [|discriminate].
    exact Hok.
Qed.

Lemma collect_tcl_tk_files_ignores_script_witness :
  result (collect_tcl_tk_files
            (Faults.with_readlines (Hosts.macos_bundled (Ok Hosts.init_stock))
               (fun _ => Ok Hosts.init_activetcl)) Hosts.ext)
  = Ok (Hosts.tcl_entries Hosts.pylib ++ Hosts.tk_entries Hosts.pylib
        ++ Hosts.module_entries Hosts.pylib).
Proof.
  apply (collect_tcl_tk_files_ignores_script
           (Hosts.macos_bundled (Ok Hosts.init_stock)) Hosts.ext).
  - reflexivity.
  - intros file. exists Hosts.init_activetcl. reflexivity.
Defined.

(** ** What a run returns and what it leaves in the log *)

(** X18. A manifest returned by [collect_tcl_tk_files] is empty, or it is
    the enumeration of an existing Tcl root under the Tcl exclusions,
    followed by the enumeration of an existing Tk root under the Tk
    exclusions, followed by nothing or by the unfiltered enumeration of
    an existing modules directory: no entry comes from elsewhere. *)
Theorem collect_tcl_tk_files_manifest_shape
    (w : World) (f : string) (manifest : list entry) :
  result (collect_tcl_tk_files w f) = Ok manifest ->
  manifest = []
  \/ exists tcl_root tk_root tclmodulestree,
       host_isdir w tcl_root = true
       /\ host_isdir w tk_root = true
       /\ manifest = host_Tree w tcl_root "tcl" tcl_excludes
                     ++ host_Tree w tk_root "tk" tk_excludes
                     ++ tclmodulestree
       /\ (tclmodulestree = []
           \/ exists modules_path major,
                host_isdir w modules_path = true
                /\ tclmodulestree =
                     host_Tree w modules_path ("tcl" +:+ major) []).
Proof.
  intros Hok.
  destruct (collect_run_cases w f)
    as [(e' & _ & Hrun)|[[_ Hrun]|[Hrun|[(p & _ & Hrun)|
        [(p & q & _ & _ & Hrun)|(p & q & _ & Hp & Hq & Hrun)]]]]];
    rewrite Hrun in Hok; cbn [result snd] in Hok;
    try discriminate; try (injection Hok as <-; left; reflexivity).
  right. exists p, q. rewrite assemble_result in Hok.
  destruct (result (health_step w p)); [|discriminate].
  destruct (collect_tcl_modules_run w p)
    as [(e' & _ & H)|[(m & _ & H)|(m & major & Hm & H)]];
    rewrite H in Hok; cbn [result snd] in Hok; [discriminate| |];
    injection Hok as <-; eexists; repeat split; eauto.
Qed.

Lemma collect_tcl_tk_files_manifest_shape_witness :
  Hosts.tcl_entries "/usr/lib" ++ Hosts.tk_entries "/usr/lib"
    ++ Hosts.module_entries "/usr/lib" = []
  \/ exists tcl_root tk_root tclmodulestree,
       host_isdir Hosts.linux tcl_root = true
       /\ host_isdir Hosts.linux tk_root = true
       /\ Hosts.tcl_entries "/usr/lib" ++ Hosts.tk_entries "/usr/lib"
            ++ Hosts.module_entries "/usr/lib"
          = host_Tree Hosts.linux tcl_root "tcl" tcl_excludes
            ++ host_Tree Hosts.linux tk_root "tk" tk_excludes
            ++ tclmodulestree
       /\ (tclmodulestree = []
           \/ exists modules_path major,
                host_isdir Hosts.linux modules_path = true
                /\ tclmodulestree =
                     host_Tree Hosts.linux modules_path ("tcl" +:+ major) []).
Proof.
  exact (collect_tcl_tk_files_manifest_shape Hosts.linux Hosts.ext _ eq_refl).
Defined.

(** X19. An empty manifest is never returned in silence unless the data
    directories themselves are empty: when [collect_tcl_tk_files] returns
    the empty manifest, either a message was logged, or both roots exist
    and their enumerations are empty. *)
Theorem collect_tcl_tk_files_empty_is_explained (w : World) (f : string) :
  result (collect_tcl_tk_files w f) = Ok [] ->
  logged (collect_tcl_tk_files w f) <> []
  \/ exists tcl_root tk_root,
       host_isdir w tcl_root = true /\ host_isdir w tk_root = true
       /\ host_Tree w tcl_root "tcl" tcl_excludes = []
       /\ host_Tree w tk_root "tk" tk_excludes = [].
Proof.
  intros Hok. unfold logged.
  destruct (collect_run_cases w f)
    as [(e' & _ & Hrun)|[[_ Hrun]|[Hrun|[(p & _ & Hrun)|
        [(p & q & _ & _ & Hrun)|(p & q & _ & Hp & Hq & Hrun)]]]]];
    rewrite Hrun in Hok |- *; cbn [result snd trace fst] in Hok |- *;
    try discriminate;
    try (left; rewrite List.filter_app; cbn;
         intros H; apply app_eq_nil in H; destruct H; discriminate).
  right. exists p, q. rewrite assemble_result in Hok.
  destruct (result (health_step w p)); [|discriminate].
  destruct (result (_collect_tcl_modules w p)); [|discriminate].
  injection Hok as Hok. apply app_eq_nil in Hok. destruct Hok as [H1 H2].
  apply app_eq_nil in H2. destruct H2 as [H2 _]. auto.
Qed.

Lemma collect_tcl_tk_files_empty_is_explained_witness :
  logged (collect_tcl_tk_files Hosts.linux_no_tk Hosts.ext) <> []
  \/ exists tcl_root tk_root,
       host_isdir Hosts.linux_no_tk tcl_root = true
       /\ host_isdir Hosts.linux_no_tk tk_root = true
       /\ host_Tree Hosts.linux_no_tk tcl_root "tcl" tcl_excludes = []
       /\ host_Tree Hosts.linux_no_tk tk_root "tk" tk_excludes = [].
Proof.
  exact (collect_tcl_tk_files_empty_is_explained Hosts.linux_no_tk Hosts.ext
           eq_refl).
Defined.

(** X20. The resolver is quiet: whatever the host, [_find_tcl_tk] logs
    nothing, tests no directory, enumerates nothing and reads no file; its
    calls are calls to the scanner, made on macOS only, followed by
    probes. *)
Theorem find_tcl_tk_quiet (w : World) (f : string) :
  List.Forall
    (fun ev => (is_scan ev = true /\ compat_is_darwin w = true)
               \/ is_probe ev = true)
    (trace (_find_tcl_tk w f)).
Proof.
  destruct (find_tcl_tk_run w f) as (scan & probes & -> & -> & Hprobes & _).
  apply List.Forall_app. split.
  - destruct (compat_is_darwin w); [|constructor].
    unfold scan_trace. destruct (host_selectImports w f);
      repeat (apply List.Forall_cons; [left; auto|]); constructor.
  - apply (List.Forall_impl _ (P := fun ev => is_probe ev = true));
      [auto | exact Hprobes].
Qed.

(** The probes of the resolver: none, the first, or the first two, and
    two paths are returned only after both. *)
Lemma find_tcl_tk_probes (w : World) (f : string) :
  exists n,
    List.filter is_probe (trace (_find_tcl_tk w f)) =
      take n [ExecStatement InfoLibrary; ExecStatement TkVersion]
    /\ forall p q, result (_find_tcl_tk w f) = Ok (Some p, Some q) -> n = 2.
Proof.
  assert (Hdir : exists n,
             List.filter is_probe (trace (_find_tcl_tk_dir w)) =
               take n [ExecStatement InfoLibrary; ExecStatement TkVersion]
             /\ forall p q, result (_find_tcl_tk_dir w) = Ok (Some p, Some q) ->
                            n = 2).
  { destruct (find_tcl_tk_dir_run w)
      as [(e & _ & ->)|[(r & e & _ & _ & ->)|(r & q & ->)]];
      [exists 1 | exists 2 | exists 2]; split; try reflexivity; discriminate. }
  assert (Hscan : List.filter is_probe (scan_trace w f) = [])
    by (unfold scan_trace; destruct (host_selectImports w f); reflexivity).
  destruct (compat_is_darwin w) eqn:Hd.
  - destruct (bins_in_use w f) as [bins|] eqn:Hbins.
    + rewrite (find_tcl_tk_bins w f bins Hd Hbins). cbn [trace result fst snd].
      rewrite List.filter_app, Hscan. cbn [app].
      destruct bins as [|b rest];
        [exfalso; exact (bins_in_use_nonempty w f Hbins)|].
      rewrite check_path_to_tcl_cons.
      destruct (system_framework (snd b)); [|exact Hdir].
      exists 0. split; [reflexivity | discriminate].
    + destruct (host_selectImports w f) as [|x xs] eqn:Hsel.
      * destruct (host_getImports w f) as [|lib libs] eqn:Hget.
        -- rewrite (find_tcl_tk_no_images w f Hd (conj Hsel Hget)).
           exists 0. split; [reflexivity | discriminate].
        -- destruct (find_tcl_tk_lookup_fails w f Hd Hsel)
             as (key & _ & _ & ->); [congruence | assumption |].
           exists 0. split; [reflexivity | discriminate].
      * unfold bins_in_use in Hbins. rewrite Hsel in Hbins. discriminate.
  - rewrite (find_tcl_tk_non_darwin w f Hd). exact Hdir.
Qed.

Lemma health_step_no_probe (w : World) (tcl_root : string) :
  List.filter is_probe (trace (health_step w tcl_root)) = [].
Proof.
  unfold health_step. destruct (compat_is_darwin w); [|reflexivity].
  destruct (health_check_cases w tcl_root (host_Tree w tcl_root "tcl" tcl_excludes))
    as [->|[(s & l & _ & _ & _ & logs & -> & [->| ->])|(s & e & _ & _ & _ & ->)]];
    reflexivity.
Qed.

(** X21. One collection starts the interpreter at most three times: for
    the library root, then for the Tk version, then for the Tcl version,
    each at most once and in this order; the probes of a run are an
    initial part of this list of three. *)
Theorem collect_tcl_tk_files_probes_once (w : World) (f : string) :
  exists n,
    List.filter is_probe (trace (collect_tcl_tk_files w f)) =
      take n [ExecStatement InfoLibrary; ExecStatement TkVersion;
              ExecStatement InfoTclVersion].
Proof.
  destruct (find_tcl_tk_probes w f) as (n & Hprobes & Hboth).
  assert (Hn : take n [ExecStatement InfoLibrary; ExecStatement TkVersion] =
               take (n `min` 2) [ExecStatement InfoLibrary; ExecStatement TkVersion;
                                 ExecStatement InfoTclVersion])
    by (destruct n as [|[|[|n]]]; reflexivity).
  destruct (collect_run_cases w f)
    as [(e' & _ & ->)|[[_ ->]|[->|[(p & _ & ->)|
        [(p & q & _ & _ & ->)|(p & q & Hres & _ & _ & ->)]]]]];
    cbn [trace fst]; rewrite ?List.filter_app, Hprobes; cbn [List.filter is_probe];
    rewrite ?app_nil_r; try (exists (n `min` 2); exact Hn).
  rewrite (Hboth p q Hres), assemble_trace, List.filter_app, health_step_no_probe.
  destruct (result (health_step w p)); [|exists 2; reflexivity].
  destruct (collect_tcl_modules_run w p)
    as [(e' & _ & ->)|[(m & _ & ->)|(m & major & _ & ->)]];
    exists 3; reflexivity.
Qed.

(** ** The health check on the manifest as an object *)

(** Run on the manifest as an object, the health check has the run of
    [_warn_if_activetcl_or_teapot_installed] and leaves the contents of
    the object as it found them, whether it returns or raises. *)
Lemma health_check_in_place_run (w : World) (tcl_root : string)
    (tcltree : list entry) :
  health_check_in_place w tcl_root tcltree =
    (_warn_if_activetcl_or_teapot_installed w tcl_root tcltree, tcltree).
Proof.
  unfold health_check_in_place, _warn_if_activetcl_or_teapot_installed,
    in_system_path, readlines, logger, lift, load, call.
  unfold mbind, InPlace_bind, M_bind, mret, InPlace_ret, M_ret. cbn.
  destruct (host_in_system_path w tcl_root); [reflexivity|].
  destruct (first _) as [init_resource|[]]; try reflexivity.
  destruct (host_readlines w init_resource) as [lines|e]; [|reflexivity].
  destruct (scan_lines lines false false) as [[] []]; reflexivity.
Qed.

(** C5, amended. For every root and every manifest the health check
    never alters the manifest it is given: run on the manifest as an
    object, it ends, returning or raising, with the contents it was
    handed. It returns at once, without a message, when the root is a
    system path and when no entry of the manifest has a path ending with
    [init.tcl]; it returns normally whenever the script can be read; an
    exception raised by opening or reading the script propagates to the
    caller, right after the reading and with nothing logged, and the
    check raises in no other way; it never logs anything but at most one
    warning, and besides that warning it only queries the system-path
    test and reads the script. *)
Theorem health_check_effects
    (w : World) (tcl_root : string) (tcltree : list entry) :
  health_check_in_place w tcl_root tcltree =
    (_warn_if_activetcl_or_teapot_installed w tcl_root tcltree, tcltree)
  /\ (host_in_system_path w tcl_root = true ->
        _warn_if_activetcl_or_teapot_installed w tcl_root tcltree =
          ([InSystemPath tcl_root], Ok tt))
  /\ (Forall (fun r => Str.endswith "init.tcl" (e_path r) = false) tcltree ->
        _warn_if_activetcl_or_teapot_installed w tcl_root tcltree =
          ([InSystemPath tcl_root], Ok tt))
  /\ (forall init_resource lines,
        init_script tcltree = Ok init_resource ->
        host_readlines w init_resource = Ok lines ->
        result (_warn_if_activetcl_or_teapot_installed w tcl_root tcltree) = Ok tt)
  /\ (forall init_resource e,
        host_in_system_path w tcl_root = false ->
        init_script tcltree = Ok init_resource ->
        host_readlines w init_resource = Raise e ->
        _warn_if_activetcl_or_teapot_installed w tcl_root tcltree =
          ([InSystemPath tcl_root; ReadLines init_resource], Raise e))
  /\ (forall e,
        result (_warn_if_activetcl_or_teapot_installed w tcl_root tcltree)
          = Raise e ->
        exists init_resource,
          host_in_system_path w tcl_root = false
          /\ init_script tcltree = Ok init_resource
          /\ host_readlines w init_resource = Raise e)
  /\ (logged (_warn_if_activetcl_or_teapot_installed w tcl_root tcltree) = []
      \/ exists init_resource,
           logged (_warn_if_activetcl_or_teapot_installed w tcl_root tcltree)
             = [Log WARNING (MsgActiveTcl init_resource)])
  /\ Forall (fun ev =>
               is_warning ev = true \/ ev = InSystemPath tcl_root
               \/ exists p, ev = ReadLines p)
       (trace (_warn_if_activetcl_or_teapot_installed w tcl_root tcltree)).
Proof.
  destruct (health_check_quiet w tcl_root tcltree)
    as (Hsys & Hnone & Hreturn & Hinv & Hlogged & Hcalls).
  split; [apply health_check_in_place_run|].
  split; [exact Hsys|]. split; [exact Hnone|]. split; [exact Hreturn|].
  split; [|split; [exact Hinv|split; [exact Hlogged | exact Hcalls]]].
  intros init_resource e Hpath Hinit Hread.
  exact (health_check_raises w tcl_root init_resource tcltree e Hpath Hinit Hread).
Qed.

(** The health check of the counterexample host, on the manifest as an
    object: the reading raises, the manifest is as it was. *)
Example health_check_undecodable_in_place :
  health_check_in_place (Hosts.macos_bundled (Raise UnicodeDecodeError))
    (Hosts.pylib +:+ "/tcl8.6") (Hosts.tcl_entries Hosts.pylib)
  = (([InSystemPath (Hosts.pylib +:+ "/tcl8.6");
       ReadLines (Hosts.pylib +:+ "/tcl8.6/init.tcl")],
      Raise UnicodeDecodeError),
     Hosts.tcl_entries Hosts.pylib).
Proof. reflexivity. Qed.

(** ** The Tcl image and the two skips *)

(** With an image list in use, its first path decides the run. *)
Lemma find_tcl_tk_decided (w : World) (f : string) (b : string * string)
    (rest : list (string * string)) :
  compat_is_darwin w = true ->
  bins_in_use w f = Some (b :: rest) ->
  _find_tcl_tk w f =
    if system_framework (snd b) then (scan_trace w f, Ok (None, None))
    else (scan_trace w f ++ trace (_find_tcl_tk_dir w),
          result (_find_tcl_tk_dir w)).
Proof.
  intros Hd Hbins.
  rewrite (find_tcl_tk_bins w f _ Hd Hbins), check_path_to_tcl_cons.
  destruct (system_framework (snd b)); [|reflexivity].
  cbn [trace result mret M_ret fst snd]. rewrite app_nil_r. reflexivity.
Qed.

(** The library filed under a base name is one of the libraries. *)
Lemma basename_mapping_In (w : World) (bins : list string) (key lib : string) :
  basename_mapping w bins !! key = Some lib ->
  In lib bins /\ path_basename (os_path w) lib = key.
Proof.
  rewrite basename_mapping_lookup. intros H.
  apply last_Some_elem_of, list_elem_of_filter in H. destruct H as [Hkey Hin].
  split; [apply list_elem_of_In, Hin | exact Hkey].
Qed.

(** The first path of the image list in use is the path of a linked
    image. *)
Lemma bins_in_use_linked (w : World) (f : string) (b : string * string)
    (rest : list (string * string)) :
  bins_in_use w f = Some (b :: rest) -> In (snd b) (linked_images w f).
Proof.
  unfold bins_in_use, linked_images.
  destruct (host_selectImports w f) as [|x xs].
  - destruct (host_getImports w f) as [|lib libs]; [discriminate|].
    destruct (basename_mapping w (lib :: libs) !! "Tcl") as [tcl|] eqn:Htcl;
      [|discriminate].
    destruct (basename_mapping w (lib :: libs) !! "Tk"); [|discriminate].
    intros [= <- _]. apply (basename_mapping_In w _ "Tcl"), Htcl.
  - intros [= <- _]. left. reflexivity.
Qed.

(** The Tcl image that the resolver gets to is the first of the image
    list in use. *)
Lemma tcl_image_heads_bins (w : World) (f tcl : string) :
  is_the_tcl_image w f tcl ->
  tcl_image_reached w f tcl ->
  exists b rest, bins_in_use w f = Some (b :: rest) /\ snd b = tcl.
Proof.
  unfold is_the_tcl_image, tcl_image_reached, linked_images, bins_in_use.
  intros Hone [(name & rest & Hsel)|[Hsel Htk]]; rewrite Hsel in *.
  - exists (name, tcl), rest. auto.
  - destruct (host_getImports w f) as [|lib libs] eqn:Hget.
    { apply List.Exists_nil in Htk. destruct Htk. }
    rewrite basename_mapping_lookup, Hone. cbn [last].
    destruct (basename_mapping w (lib :: libs) !! "Tk") as [tk|] eqn:Hmap.
    + exists ("Tcl", tcl), [("Tk", tk)]. auto.
    + apply basename_mapping_None in Hmap. apply List.Exists_exists in Htk.
      destruct Htk as (x & Hx & Hname). rewrite List.Forall_forall in Hmap.
      destruct (Hmap x Hx Hname).
Qed.

(** C3, amended. On macOS [_find_tcl_tk] returns [(None, None)] when the
    scanner discovers no linked image at all, and when the Tcl image, the
    one linked image whose base name is [Tcl], is the image the resolver
    gets to (it heads the curated subset, or the curated subset is empty
    and the full set also holds an image named [Tk]) and its path
    contains [Library/Frameworks/Tcl.framework]; when it gets to the Tcl
    image and the path does not contain the segment, and whenever the
    image list is found and no path of a linked image contains the
    segment, it falls back to the standard derivation of
    [_find_tcl_tk_dir], and then does not return [(None, None)]; and it
    returns [(None, None)] in no run but one without a linked image or
    with a linked image whose path contains the segment. What it does
    when a base name is missing from the full set, or when a curated
    subset with such a path is not headed by the Tcl image, is left
    open. *)
Theorem find_tcl_tk_darwin_skips (w : World) (f : string) :
  compat_is_darwin w = true ->
  (no_linked_images w f ->
   _find_tcl_tk w f = (scan_trace w f, Ok (None, None)))
  /\ (forall tcl,
        is_the_tcl_image w f tcl ->
        tcl_image_reached w f tcl ->
        (result (_find_tcl_tk w f) = Ok (None, None)
         <-> system_framework tcl = true)
        /\ (system_framework tcl = false ->
            _find_tcl_tk w f =
              (scan_trace w f ++ trace (_find_tcl_tk_dir w),
               result (_find_tcl_tk_dir w))))
  /\ (bins_in_use w f <> None ->
      List.Forall (fun lib => system_framework lib = false)
        (linked_images w f) ->
      _find_tcl_tk w f =
        (scan_trace w f ++ trace (_find_tcl_tk_dir w),
         result (_find_tcl_tk_dir w))
      /\ result (_find_tcl_tk w f) <> Ok (None, None))
  /\ (result (_find_tcl_tk w f) = Ok (None, None) ->
      no_linked_images w f
      \/ exists lib, In lib (linked_images w f) /\ system_framework lib = true).
Proof.
  intros Hd.
  assert (Hdir : result (_find_tcl_tk_dir w) <> Ok (None, None)).
  { destruct (find_tcl_tk_dir_shape w) as [(p & q & H)|[e H]];
      rewrite H; discriminate. }
  split; [|split; [|split]].
  - intros Hnone. apply find_tcl_tk_skip_run; auto.
  - intros tcl Hone Hreached.
    destruct (tcl_image_heads_bins w f tcl Hone Hreached)
      as (b & rest & Hbins & <-).
    rewrite (find_tcl_tk_decided w f b rest Hd Hbins).
    destruct (system_framework (snd b)); cbn [result snd].
    + split; [tauto | discriminate].
    + split; [|reflexivity]. split; [intros H; destruct (Hdir H) | discriminate].
  - intros Hfound Hclean.
    destruct (bins_in_use w f) as [[|b rest]|] eqn:Hbins; [| |congruence].
    { destruct (bins_in_use_nonempty w f Hbins). }
    rewrite (find_tcl_tk_decided w f b rest Hd Hbins).
    rewrite List.Forall_forall in Hclean.
    rewrite (Hclean _ (bins_in_use_linked w f b rest Hbins)).
    split; [reflexivity | exact Hdir].
  - intros Hres.
    destruct (bins_in_use w f) as [[|b rest]|] eqn:Hbins.
    + destruct (bins_in_use_nonempty w f Hbins).
    + right. exists (snd b). split; [exact (bins_in_use_linked w f b rest Hbins)|].
      rewrite (find_tcl_tk_decided w f b rest Hd Hbins) in Hres.
      destruct (system_framework (snd b)); [reflexivity|].
      destruct (Hdir Hres).
    + destruct (host_selectImports w f) as [|x xs] eqn:Hsel.
      * destruct (host_getImports w f) as [|lib libs] eqn:Hget.
        -- left. split; assumption.
        -- destruct (find_tcl_tk_lookup_fails w f Hd Hsel) as (key & _ & _ & H);
             [congruence | assumption |].
           rewrite H in Hres. discriminate.
      * unfold bins_in_use in Hbins. rewrite Hsel in Hbins. discriminate.
Qed.

Lemma find_tcl_tk_darwin_skips_witness :
  compat_is_darwin Hosts.macos_system = true
  /\ result (_find_tcl_tk Hosts.macos_system Hosts.ext) = Ok (None, None)
  /\ _find_tcl_tk (Hosts.macos_bundled (Ok [])) Hosts.ext =
       ([SelectImports Hosts.ext; ExecStatement InfoLibrary;
         ExecStatement TkVersion],
        Ok (Some (Hosts.pylib +:+ "/tcl8.6"), Some (Hosts.pylib +:+ "/tk8.6"))).
Proof.
  split; [reflexivity|]. split.
  - apply (proj1 (proj2 (find_tcl_tk_darwin_skips Hosts.macos_system
                           Hosts.ext eq_refl))
             "/System/Library/Frameworks/Tcl.framework/Versions/8.5/Tcl").
    + vm_compute. reflexivity.
    + right. split; [reflexivity|]. apply List.Exists_cons_hd. reflexivity.
    + reflexivity.
  - rewrite (proj1 (proj1 (proj2 (proj2 (find_tcl_tk_darwin_skips
                      (Hosts.macos_bundled (Ok [])) Hosts.ext eq_refl)))
                      ltac:(discriminate)
                      ltac:(repeat constructor))).
    reflexivity.
Defined.

(** The counterexamples to C3 as worded. A host whose curated subset is
    empty and whose full set holds no image named [Tcl]: no skip case
    applies, yet the run does not fall back, it ends in [KeyError]. And a
    host whose curated subset lists the Tcl image of the system framework
    second: the second skip case applies, yet the run falls back. *)
Lemma skips_exactly_twice_fails :
  ~ skips_exactly_twice Hosts.macos_dylibs Hosts.ext
  /\ ~ skips_exactly_twice Faults.macos_tcl_second Hosts.ext.
Proof.
  split; intros H; destruct (H eq_refl) as [Hiff Hfall].
  - assert (Hne : result (_find_tcl_tk Hosts.macos_dylibs Hosts.ext)
                  <> result (_find_tcl_tk_dir Hosts.macos_dylibs))
      by (vm_compute; discriminate).
    apply Hne, Hfall. intros [[_ Hget]|(p & Hin & Hname & _)].
    + vm_compute in Hget. discriminate.
    + cbn in Hin. destruct Hin as [<-|[<-|[<-|[]]]]; vm_compute in Hname;
        discriminate.
  - assert (Hne : result (_find_tcl_tk Faults.macos_tcl_second Hosts.ext)
                  <> Ok (None, None))
      by (vm_compute; discriminate).
    apply Hne, Hiff. right.
    exists "/System/Library/Frameworks/Tcl.framework/Versions/8.5/Tcl".
    split; [right; left; reflexivity|]. split; reflexivity.
Qed.

(** A computation that stores does alter the object: the statement about
    the health check is one about that function. *)
Example store_alters_manifest (tree : list entry) :
  (store [] ≫= fun _ => load) tree = (mret [], []).
Proof. reflexivity. Qed.
